(** * Task access control and token lifecycle of the ORM comparison API

    A shallow embedding of the service layer of the repository: the shared
    types of [@packages/types], the [TokenService] of [@packages/common],
    and the task and authentication services of the drizzle, typeorm and
    objection applications, together with the repositories they call.

    Asynchronous methods are functions in a state-and-exception monad over
    the database: a rejected promise is an outcome [Rejected e], and the
    database keeps whatever was written before the rejection. *)

From Stdlib Require Import ZArith String Bool DecimalString.
From stdpp Require Import gmap strings.

Local Open Scope string_scope.
Local Open Scope Z_scope.

(** ** Shared types ([@packages/types]) *)

Inductive UserRole := ADMIN | MANAGER | USER.
Inductive TaskStatus := PENDING | IN_PROGRESS | COMPLETED | CANCELLED.
Inductive TaskPriority := LOW | MEDIUM | HIGH | URGENT.

(** A [Date] is a point in time, in seconds. *)
Definition Date := Z.

#[global] Instance UserRole_eq_dec : EqDecision UserRole.
Proof. solve_decision. Defined.
#[global] Instance TaskStatus_eq_dec : EqDecision TaskStatus.
Proof. solve_decision. Defined.
#[global] Instance TaskPriority_eq_dec : EqDecision TaskPriority.
Proof. solve_decision. Defined.

(** [interface User extends BaseEntity]. *)
Record User := mkUser {
  user_id : Z;
  user_email : string;
  user_firstName : string;
  user_lastName : option string;
  user_isActive : bool;
  user_role : UserRole;
  user_password : string;
  user_createdAt : Date;
  user_updatedAt : Date
}.

(** [interface Task extends BaseEntity]: a row of the tasks table. *)
Record Task := mkTask {
  id : Z;
  title : string;
  description : option string;
  status : TaskStatus;
  priority : TaskPriority;
  assignedToId : Z;
  createdBy : Z;
  completedAt : option Date;
  createdAt : Date;
  updatedAt : Date
}.

#[global] Instance Task_eq_dec : EqDecision Task.
Proof. solve_decision. Defined.

(** [Partial<Task>]: every field may be absent ([undefined]).  The field
    [p_dueDate] is the key that [updateTaskDueDate] passes under an
    [as any] cast; the tasks table has no column of that name. *)
Record PartialTask := mkPartial {
  p_id : option Z;
  p_title : option string;
  p_description : option string;
  p_status : option TaskStatus;
  p_priority : option TaskPriority;
  p_assignedToId : option Z;
  p_createdBy : option Z;
  p_completedAt : option Date;
  p_dueDate : option Date;
  p_createdAt : option Date;
  p_updatedAt : option Date
}.

(** The object literal [{}]. *)
Definition empty_partial : PartialTask :=
  mkPartial None None None None None None None None None None None.

(** ** Exceptions ([@packages/common] errors) and the [Async] monad *)

Inductive Exception :=
| UnauthorizedException (message : string)
| NotFoundException (message : string)
| BadRequestException (message : string)
| Error (message : string).

(** The database: the two tables, the serial of the tasks table and the
    clock read by [now()] and by the token library. *)
Record World := mkWorld {
  tasks : gmap Z Task;
  users : gmap Z User;
  tasks_id_seq : Z;
  clock : Date
}.

Inductive Outcome (A : Type) :=
| Resolved (value : A)
| Rejected (reason : Exception).
Arguments Resolved {A} value.
Arguments Rejected {A} reason.

Definition Async (A : Type) : Type := World -> Outcome A * World.

Definition ret {A} (a : A) : Async A := fun w => (Resolved a, w).
Definition throw {A} (e : Exception) : Async A := fun w => (Rejected e, w).
Definition bind {A B} (m : Async A) (k : A -> Async B) : Async B :=
  fun w => match m w with
           | (Resolved a, w') => k a w'
           | (Rejected e, w') => (Rejected e, w')
           end.
(** [try { m } catch (error) { h error }]. *)
Definition try_catch {A} (m : Async A) (h : Exception -> Async A) : Async A :=
  fun w => match m w with
           | (Resolved a, w') => (Resolved a, w')
           | (Rejected e, w') => h e w'
           end.

#[global] Instance Async_ret : MRet Async := @ret.
#[global] Instance Async_bind : MBind Async := fun A B k m => bind m k.

(** A template literal's rendering of an integer id. *)
Definition render (n : Z) : string := NilZero.string_of_int (Z.to_int n).

(** JavaScript's [a || b] on an optional number: [undefined] and [0] are
    falsy. *)
Definition or_number (a : option Z) (b : Z) : Z :=
  match a with
  | Some v => if Z.eqb v 0 then b else v
  | None => b
  end.

(** [a || b] and [a ?? b] on an optional enum member or an optional value
    that is never falsy when present. *)
Definition or_default {A} (a : option A) (b : A) : A :=
  match a with Some v => v | None => b end.

(** [a || b] on an optional string: the empty string is falsy. *)
Definition or_string (a : option string) (b : string) : string :=
  match a with
  | Some v => if String.eqb v "" then b else v
  | None => b
  end.

(** Writing the defined keys of a [Partial<Task>] over a row, as an
    [UPDATE ... SET] does: an absent key leaves its column alone. *)
Definition patch (row : Task) (d : PartialTask) : Task :=
  {| id := or_default (p_id d) (id row);
     title := or_default (p_title d) (title row);
     description := match p_description d with
                    | Some s => Some s
                    | None => description row
                    end;
     status := or_default (p_status d) (status row);
     priority := or_default (p_priority d) (priority row);
     assignedToId := or_default (p_assignedToId d) (assignedToId row);
     createdBy := or_default (p_createdBy d) (createdBy row);
     completedAt := match p_completedAt d with
                    | Some t => Some t
                    | None => completedAt row
                    end;
     createdAt := or_default (p_createdAt d) (createdAt row);
     updatedAt := or_default (p_updatedAt d) (updatedAt row) |}.

Definition set_tasks (f : gmap Z Task -> gmap Z Task) (w : World) : World :=
  {| tasks := f (tasks w); users := users w;
     tasks_id_seq := tasks_id_seq w; clock := clock w |}.

(** ** Tokens *)

(** [interface TokenPayload]. *)
Record TokenPayload := mkPayload {
  userId : Z;
  email : string;
  role : UserRole
}.

(** The [jsonwebtoken] library is a third-party dependency.  It is modelled
    symbolically: a compact token is the claims it carries (the signed
    payload with the issue and expiry times the library adds) and a
    signature over them under an unspecified keyed hash; any other string
    is malformed.  Verification recomputes the signature and compares the
    expiry with the clock. *)
Module jwt.

Record Claims := mkClaims {
  payload : TokenPayload;
  iat : Z;
  exp : Z
}.

Inductive Token :=
| Malformed (raw : string)
| Compact (claims : Claims) (signature : string).

Section Codec.
Variable hmac : string -> Claims -> string.

Definition sign (p : TokenPayload) (secret : string) (expiresIn : Z)
    (now : Date) : Token :=
  let claims := {| payload := p; iat := now; exp := now + expiresIn |} in
  Compact claims (hmac secret claims).

(** [None] stands for any of the library's errors. *)
Definition verify (token : Token) (secret : string) (now : Date)
    : option Claims :=
  match token with
  | Malformed _ => None
  | Compact claims signature =>
      if String.eqb signature (hmac secret claims) && (now <? exp claims)
      then Some claims
      else None
  end.
End Codec.

End jwt.

(** The pair [{ token, refreshToken }] returned by the authentication
    service. *)
Record TokenPair := mkPair {
  pair_token : jwt.Token;
  pair_refreshToken : jwt.Token
}.

(** [class TokenService]; [secret] is [config.jwt.secret], and [now] the
    clock the library reads. *)
Module TokenService.
Section WithConfig.
Variable hmac : string -> jwt.Claims -> string.
Variable secret : string.

Definition generateToken (user : User) (now : Date) : jwt.Token :=
  let payload := {| userId := user_id user;
                    email := user_email user;
                    role := user_role user |} in
  jwt.sign hmac payload secret (24 * 3600) now.

Definition generateRefreshToken (user : User) (now : Date) : jwt.Token :=
  let payload := {| userId := user_id user;
                    email := user_email user;
                    role := user_role user |} in
  jwt.sign hmac payload secret (7 * 24 * 3600) now.

(** The decoded object, which the source casts to [TokenPayload]. *)
Definition verifyToken (token : jwt.Token) (now : Date)
    : Outcome jwt.Claims :=
  match jwt.verify hmac token secret now with
  | Some decoded => Resolved decoded
  | None => Rejected (UnauthorizedException "Invalid or expired token")
  end.
End WithConfig.
End TokenService.

(** Reading the clock, and running a synchronous call that may throw. *)
Definition currentTime : Async Date := fun w => (Resolved (clock w), w).
Definition sync {A} (r : Outcome A) : Async A := fun w => (r, w).

(** ** The database engine *)

(** The tables live in PostgreSQL.  A statement that the engine refuses
    rejects with the driver's error, which is none of the application's
    exceptions: it is an [Error], and its text is not part of the source.
    The same holds for the errors of the mappers and of the runtime. *)

(** No key of the payload has a value. *)
Definition no_values (d : PartialTask) : bool :=
  match p_id d, p_title d, p_description d, p_status d, p_priority d,
        p_assignedToId d, p_createdBy d, p_completedAt d, p_dueDate d,
        p_createdAt d, p_updatedAt d with
  | None, None, None, None, None, None, None, None, None, None, None => true
  | _, _, _, _, _, _, _, _, _, _, _ => false
  end.

(** [varchar(255)]. *)
Definition fits_varchar255 (s : string) : bool :=
  Z.of_nat (String.length s) <=? 255.

(** A foreign key into [users(id)]: the value, when one is written, is
    the id of a row. *)
Definition references_user (w : World) (ref : option Z) : bool :=
  match ref with
  | Some id' => bool_decide (is_Some (users w !! id'))
  | None => true
  end.

(** The primary key of [tasks] is free. *)
Definition task_id_free (w : World) (id' : Z) : bool :=
  bool_decide (tasks w !! id' = None).

(** A sequence is not rolled back: a refused [INSERT] has still drawn its
    value. *)
Definition draw_task_id (w : World) : World :=
  {| tasks := tasks w; users := users w;
     tasks_id_seq := tasks_id_seq w + 1; clock := clock w |}.

(** ** The drizzle application *)

Module Drizzle.

(** [repositories/taskRepository.ts] over the tasks table of
    [schema/tasks.ts]: serial primary key, [title varchar(255) NOT NULL],
    [assigned_to_id] and [created_by] NOT NULL with foreign keys into
    users.  A [try] block whose handler rethrows the error it caught is
    left out. *)
Module TaskRepository.

Definition create (taskData : PartialTask) : Async Task := fun w =>
  match p_title taskData, p_assignedToId taskData, p_createdBy taskData with
  | Some t, Some a, Some c =>
      let newTask :=
        {| id := tasks_id_seq w;
           title := t;
           description := Some (or_default (p_description taskData) "");
           status := or_default (p_status taskData) PENDING;
           priority := or_default (p_priority taskData) MEDIUM;
           assignedToId := a;
           createdBy := c;
           completedAt := p_completedAt taskData;
           createdAt := clock w;
           updatedAt := clock w |} in
      if negb (fits_varchar255 t)
      then (Rejected (Error "value too long for type character varying(255)"),
            draw_task_id w)
      else if negb (task_id_free w (tasks_id_seq w))
      then (Rejected (Error "duplicate key value violates unique constraint"),
            draw_task_id w)
      else if negb (references_user w (Some a) && references_user w (Some c))
      then (Rejected (Error "insert violates foreign key constraint"),
            draw_task_id w)
      else
        (Resolved newTask,
         {| tasks := <[tasks_id_seq w := newTask]> (tasks w);
            users := users w;
            tasks_id_seq := tasks_id_seq w + 1;
            clock := clock w |})
  | _, _, _ =>
      (Rejected (Error "null value violates not-null constraint"),
       draw_task_id w)
  end.

Definition findById (id' : Z) : Async (option Task) := fun w =>
  (Resolved (tasks w !! id'), w).

Definition findAll : Async (list Task) := fun w =>
  (Resolved (map snd (map_to_list (tasks w))), w).

Definition findByUserId (userId : Z) : Async (list Task) := fun w =>
  (Resolved (filter (fun t => assignedToId t = userId \/ createdBy t = userId)
                    (map snd (map_to_list (tasks w)))), w).

Definition findByAssignedUserId (userId : Z) : Async (list Task) := fun w =>
  (Resolved (filter (fun t => assignedToId t = userId)
                    (map snd (map_to_list (tasks w)))), w).

(** [set()] refuses a payload without values before any query is sent,
    and the query cannot be built for a key that names no column
    ([dueDate]).  The row is written under the id of the payload when it
    has one. *)
Definition update (id' : Z) (taskData : PartialTask) : Async Task := fun w =>
  if no_values taskData
  then (Rejected (Error "No values to set"), w)
  else if bool_decide (is_Some (p_dueDate taskData))
  then (Rejected (Error "TypeError: the key is not a column of the table"), w)
  else
    match tasks w !! id' with
    | Some row =>
        let updatedTask := patch row taskData in
        if negb (fits_varchar255 (or_default (p_title taskData) ""))
        then (Rejected
                (Error "value too long for type character varying(255)"), w)
        else if negb (references_user w (p_assignedToId taskData)
                      && references_user w (p_createdBy taskData))
        then (Rejected (Error "update violates foreign key constraint"), w)
        else
          match p_id taskData with
          | None =>
              (Resolved updatedTask,
               set_tasks (fun m => <[id' := updatedTask]> m) w)
          | Some key =>
              if bool_decide (key = id')
              then (Resolved updatedTask,
                    set_tasks (fun m => <[id' := updatedTask]> m) w)
              else if task_id_free w key
              then (Resolved updatedTask,
                    set_tasks (fun m => <[key := updatedTask]>
                                          (base.delete id' m)) w)
              else (Rejected
                      (Error "duplicate key value violates unique constraint"),
                    w)
          end
    | None => (Rejected (Error "Task not found"), w)
    end.

Definition delete (id' : Z) : Async unit := fun w =>
  (Resolved tt, set_tasks (base.delete id') w).

End TaskRepository.

(** [repositories/userRepository.ts]: the lookup has no condition on
    [isActive]. *)
Module UserRepository.

Definition findById (id' : Z) : Async (option User) := fun w =>
  (Resolved (users w !! id'), w).

End UserRepository.

(** [services/taskService.ts].  The priority reaches
    [updateTaskPriority] as a string that the request schema has checked
    to be a member of [TaskPriority]. *)
Module TaskService.

Definition createTask (taskData : PartialTask) (userId : Z)
    (userRole : UserRole) : Async Task :=
  if bool_decide (userRole <> ADMIN) && bool_decide (userRole <> MANAGER)
  then throw (UnauthorizedException "Only ADMIN and MANAGER can create tasks")
  else
    TaskRepository.create
      {| p_id := p_id taskData;
         p_title := p_title taskData;
         p_description := p_description taskData;
         p_status := p_status taskData;
         p_priority := p_priority taskData;
         p_assignedToId := Some (or_number (p_assignedToId taskData) userId);
         p_createdBy := Some userId;
         p_completedAt := p_completedAt taskData;
         p_dueDate := p_dueDate taskData;
         p_createdAt := p_createdAt taskData;
         p_updatedAt := p_updatedAt taskData |}.

Definition getTaskById (taskId userId : Z) (userRole : UserRole)
    : Async Task :=
  task ← TaskRepository.findById taskId;
  match task with
  | None => throw (NotFoundException
                     ("Task with id " +:+ render taskId +:+ " not found"))
  | Some task =>
      if bool_decide (userRole = ADMIN) then mret task
      else if bool_decide (userRole = MANAGER)
              && (bool_decide (createdBy task = userId)
                  || bool_decide (assignedToId task = userId))
      then mret task
      else if bool_decide (userRole = USER)
              && bool_decide (assignedToId task = userId)
      then mret task
      else throw (UnauthorizedException
                    "You do not have permission to access this task")
  end.

Definition getTasksByUser (userId : Z) (userRole : UserRole)
    : Async (list Task) :=
  match userRole with
  | ADMIN => TaskRepository.findAll
  | MANAGER => TaskRepository.findByUserId userId
  | USER => TaskRepository.findByAssignedUserId userId
  end.

(** The object literal a USER's update is narrowed to. *)
Definition allowedUpdates (taskData : PartialTask) : PartialTask :=
  {| p_id := None; p_title := None; p_description := None;
     p_status := p_status taskData;
     p_priority := None; p_assignedToId := None; p_createdBy := None;
     p_completedAt := p_completedAt taskData;
     p_dueDate := None; p_createdAt := None; p_updatedAt := None |}.

Definition updateTask (taskId : Z) (taskData : PartialTask) (userId : Z)
    (userRole : UserRole) : Async Task :=
  task ← TaskRepository.findById taskId;
  match task with
  | None => throw (NotFoundException
                     ("Task with id " +:+ render taskId +:+ " not found"))
  | Some task =>
      if bool_decide (userRole = ADMIN)
      then TaskRepository.update taskId taskData
      else if bool_decide (userRole = MANAGER)
              && bool_decide (createdBy task = userId)
      then TaskRepository.update taskId taskData
      else if bool_decide (userRole = USER)
              && bool_decide (assignedToId task = userId)
      then TaskRepository.update taskId (allowedUpdates taskData)
      else throw (UnauthorizedException
                    "You do not have permission to update this task")
  end.

Definition deleteTask (taskId userId : Z) (userRole : UserRole)
    : Async bool :=
  task ← TaskRepository.findById taskId;
  match task with
  | None => throw (NotFoundException
                     ("Task with id " +:+ render taskId +:+ " not found"))
  | Some _ =>
      if bool_decide (userRole <> ADMIN)
      then throw (UnauthorizedException "Only ADMIN can delete tasks")
      else TaskRepository.delete taskId;; mret true
  end.

Definition assignTask (taskId assigneeId userId : Z) (userRole : UserRole)
    : Async Task :=
  task ← TaskRepository.findById taskId;
  match task with
  | None => throw (NotFoundException
                     ("Task with id " +:+ render taskId +:+ " not found"))
  | Some _ =>
      if bool_decide (userRole <> ADMIN) && bool_decide (userRole <> MANAGER)
      then throw (UnauthorizedException
                    "Only ADMIN and MANAGER can assign tasks")
      else
        assignee ← UserRepository.findById assigneeId;
        match assignee with
        | None => throw (NotFoundException
                           ("User with id " +:+ render assigneeId
                            +:+ " not found"))
        | Some _ =>
            TaskRepository.update taskId
              {| p_id := None; p_title := None; p_description := None;
                 p_status := None; p_priority := None;
                 p_assignedToId := Some assigneeId;
                 p_createdBy := None; p_completedAt := None;
                 p_dueDate := None; p_createdAt := None;
                 p_updatedAt := None |}
        end
  end.

Definition updateTaskStatus (taskId : Z) (status : TaskStatus) (userId : Z)
    (userRole : UserRole) : Async Task :=
  task ← TaskRepository.findById taskId;
  match task with
  | None => throw (NotFoundException
                     ("Task with id " +:+ render taskId +:+ " not found"))
  | Some task =>
      if bool_decide (userRole = USER)
         && bool_decide (assignedToId task <> userId)
      then throw (UnauthorizedException
                    "You can only update status of your own tasks")
      else if bool_decide (userRole = MANAGER)
              && bool_decide (createdBy task <> userId)
              && bool_decide (assignedToId task <> userId)
      then throw (UnauthorizedException
                    "You do not have permission to update this task")
      else
        TaskRepository.update taskId
          {| p_id := None; p_title := None; p_description := None;
             p_status := Some status; p_priority := None;
             p_assignedToId := None; p_createdBy := None;
             p_completedAt := None; p_dueDate := None;
             p_createdAt := None; p_updatedAt := None |}
  end.

Definition updateTaskDueDate (taskId : Z) (dueDate : Date) (userId : Z)
    (userRole : UserRole) : Async Task :=
  if bool_decide (userRole <> ADMIN) && bool_decide (userRole <> MANAGER)
  then throw (UnauthorizedException
                "Only ADMIN and MANAGER can update task due date")
  else
    task ← TaskRepository.findById taskId;
    match task with
    | None => throw (NotFoundException
                       ("Task with id " +:+ render taskId +:+ " not found"))
    | Some _ =>
        TaskRepository.update taskId
          {| p_id := None; p_title := None; p_description := None;
             p_status := None; p_priority := None;
             p_assignedToId := None; p_createdBy := None;
             p_completedAt := None; p_dueDate := Some dueDate;
             p_createdAt := None; p_updatedAt := None |}
    end.

Definition updateTaskPriority (taskId : Z) (priority : TaskPriority)
    (userId : Z) (userRole : UserRole) : Async Task :=
  if bool_decide (userRole <> ADMIN) && bool_decide (userRole <> MANAGER)
  then throw (UnauthorizedException
                "Only ADMIN and MANAGER can update task priority")
  else
    task ← TaskRepository.findById taskId;
    match task with
    | None => throw (NotFoundException
                       ("Task with id " +:+ render taskId +:+ " not found"))
    | Some _ =>
        TaskRepository.update taskId
          {| p_id := None; p_title := None; p_description := None;
             p_status := None; p_priority := Some priority;
             p_assignedToId := None; p_createdBy := None;
             p_completedAt := None; p_dueDate := None;
             p_createdAt := None; p_updatedAt := None |}
    end.

End TaskService.

(** [services/authService.ts]. *)
Module AuthService.
Section WithConfig.
Variable hmac : string -> jwt.Claims -> string.
Variable secret : string.

Definition generateToken (user : User) : Async jwt.Token :=
  now ← currentTime; mret (TokenService.generateToken hmac secret user now).

Definition generateRefreshToken (user : User) : Async jwt.Token :=
  now ← currentTime;
  mret (TokenService.generateRefreshToken hmac secret user now).

Definition refreshToken (token : jwt.Token) : Async TokenPair :=
  try_catch
    (now ← currentTime;
     payload ← sync (TokenService.verifyToken hmac secret token now);
     user ← UserRepository.findById (userId (jwt.payload payload));
     match user with
     | None => throw (UnauthorizedException "User not found")
     | Some user =>
         newToken ← generateToken user;
         newRefreshToken ← generateRefreshToken user;
         mret {| pair_token := newToken;
                 pair_refreshToken := newRefreshToken |}
     end)
    (fun _ => throw (UnauthorizedException "Invalid refresh token")).
End WithConfig.
End AuthService.

End Drizzle.

(** ** The typeorm application *)

Module TypeOrm.

(** [repositories/taskRepository.ts] over the entity [Task] and the
    table of the migration: generated primary key, [title] NOT NULL,
    foreign keys from [assigned_to_id] and [created_by] into users.
    [save] writes the properties of the entity that differ from the stored
    row and are not [undefined]; when it writes, the [@UpdateDateColumn]
    is set to the current time and read back into the entity. *)
Module TaskRepository.

Definition create (taskData : PartialTask) : Async Task := fun w =>
  match p_title taskData, p_assignedToId taskData, p_createdBy taskData with
  | Some t, Some a, Some c =>
      let task :=
        {| id := tasks_id_seq w;
           title := t;
           description := Some (or_string (p_description taskData) "");
           status := or_default (p_status taskData) PENDING;
           priority := or_default (p_priority taskData) MEDIUM;
           assignedToId := a;
           createdBy := c;
           completedAt := None;
           createdAt := clock w;
           updatedAt := clock w |} in
      if negb (task_id_free w (tasks_id_seq w))
      then (Rejected (Error "duplicate key value violates unique constraint"),
            draw_task_id w)
      else if negb (references_user w (Some a) && references_user w (Some c))
      then (Rejected (Error "insert violates foreign key constraint"),
            draw_task_id w)
      else
        (Resolved task,
         {| tasks := <[tasks_id_seq w := task]> (tasks w);
            users := users w;
            tasks_id_seq := tasks_id_seq w + 1;
            clock := clock w |})
  | _, _, _ =>
      (Rejected (Error "null value violates not-null constraint"),
       draw_task_id w)
  end.

Definition findById (id' : Z) : Async (option Task) := fun w =>
  (Resolved (tasks w !! id'), w).

Definition findAll : Async (list Task) := fun w =>
  (Resolved (map snd (map_to_list (tasks w))), w).

Definition findByUserId (userId : Z) : Async (list Task) := fun w =>
  (Resolved (filter (fun t => assignedToId t = userId \/ createdBy t = userId)
                    (map snd (map_to_list (tasks w)))), w).

Definition findByAssignedUserId (userId : Z) : Async (list Task) := fun w =>
  (Resolved (filter (fun t => assignedToId t = userId)
                    (map snd (map_to_list (tasks w)))), w).

(** The six keys that [update] copies with [Object.assign]. *)
Definition assigned (taskData : PartialTask) : PartialTask :=
  {| p_id := None;
     p_title := p_title taskData;
     p_description := p_description taskData;
     p_status := p_status taskData;
     p_priority := p_priority taskData;
     p_assignedToId := p_assignedToId taskData;
     p_createdBy := None;
     p_completedAt := p_completedAt taskData;
     p_dueDate := None; p_createdAt := None; p_updatedAt := None |}.

Definition touch (now : Date) (row : Task) : Task :=
  {| id := id row; title := title row; description := description row;
     status := status row; priority := priority row;
     assignedToId := assignedToId row; createdBy := createdBy row;
     completedAt := completedAt row; createdAt := createdAt row;
     updatedAt := now |}.

(** [mapToTask] of the entity after [Object.assign] and [save]: the six
    copied keys hold what the payload held, [undefined] included; the
    other keys are the stored row's. *)
Definition mapToTask (taskData : PartialTask) (stored : Task) : PartialTask :=
  {| p_id := Some (id stored);
     p_title := p_title taskData;
     p_description := p_description taskData;
     p_status := p_status taskData;
     p_priority := p_priority taskData;
     p_assignedToId := p_assignedToId taskData;
     p_createdBy := Some (createdBy stored);
     p_completedAt := p_completedAt taskData;
     p_dueDate := None;
     p_createdAt := Some (createdAt stored);
     p_updatedAt := Some (updatedAt stored) |}.

Definition update (id' : Z) (taskData : PartialTask) : Async PartialTask :=
  fun w =>
    match tasks w !! id' with
    | Some task =>
        let assignedTask := patch task (assigned taskData) in
        if bool_decide (assignedTask = task)
        then (Resolved (mapToTask taskData task), w)
        else if negb (references_user w (p_assignedToId taskData))
        then (Rejected (Error "update violates foreign key constraint"), w)
        else
          let updatedTask := touch (clock w) assignedTask in
          (Resolved (mapToTask taskData updatedTask),
           set_tasks (fun m => <[id' := updatedTask]> m) w)
    | None => (Rejected (Error "Task not found"), w)
    end.

Definition delete (id' : Z) : Async unit := fun w =>
  (Resolved tt, set_tasks (base.delete id') w).

End TaskRepository.

(** [repositories/userRepository.ts]: the lookup is restricted to active
    users. *)
Module UserRepository.

Definition findById (id' : Z) : Async (option User) := fun w =>
  (Resolved (match users w !! id' with
             | Some user => if user_isActive user then Some user else None
             | None => None
             end), w).

End UserRepository.

(** [services/taskService.ts]. *)
Module TaskService.

Definition createTask (taskData : PartialTask) (userId : Z)
    (userRole : UserRole) : Async Task :=
  if bool_decide (userRole <> ADMIN) && bool_decide (userRole <> MANAGER)
  then throw (UnauthorizedException "Only ADMIN and MANAGER can create tasks")
  else
    TaskRepository.create
      {| p_id := p_id taskData;
         p_title := p_title taskData;
         p_description := p_description taskData;
         p_status := p_status taskData;
         p_priority := p_priority taskData;
         p_assignedToId := Some (or_number (p_assignedToId taskData) userId);
         p_createdBy := Some userId;
         p_completedAt := p_completedAt taskData;
         p_dueDate := p_dueDate taskData;
         p_createdAt := p_createdAt taskData;
         p_updatedAt := p_updatedAt taskData |}.

Definition getTaskById (taskId userId : Z) (userRole : UserRole)
    : Async Task :=
  task ← TaskRepository.findById taskId;
  match task with
  | None => throw (NotFoundException
                     ("Task with id " +:+ render taskId +:+ " not found"))
  | Some task =>
      if bool_decide (userRole = ADMIN) then mret task
      else if bool_decide (userRole = MANAGER)
              && (bool_decide (createdBy task = userId)
                  || bool_decide (assignedToId task = userId))
      then mret task
      else if bool_decide (userRole = USER)
              && bool_decide (assignedToId task = userId)
      then mret task
      else throw (UnauthorizedException
                    "You do not have permission to access this task")
  end.

Definition getTasksByUser (userId : Z) (userRole : UserRole)
    : Async (list Task) :=
  match userRole with
  | ADMIN => TaskRepository.findAll
  | MANAGER => TaskRepository.findByUserId userId
  | USER => TaskRepository.findByAssignedUserId userId
  end.

(** The object literal a USER's update is narrowed to. *)
Definition allowedUpdates (taskData : PartialTask) : PartialTask :=
  {| p_id := None; p_title := None; p_description := None;
     p_status := p_status taskData;
     p_priority := None; p_assignedToId := None; p_createdBy := None;
     p_completedAt := p_completedAt taskData;
     p_dueDate := None; p_createdAt := None; p_updatedAt := None |}.

Definition updateTask (taskId : Z) (taskData : PartialTask) (userId : Z)
    (userRole : UserRole) : Async PartialTask :=
  task ← TaskRepository.findById taskId;
  match task with
  | None => throw (NotFoundException
                     ("Task with id " +:+ render taskId +:+ " not found"))
  | Some task =>
      if bool_decide (userRole = ADMIN)
      then TaskRepository.update taskId taskData
      else if bool_decide (userRole = MANAGER)
              && bool_decide (createdBy task = userId)
      then TaskRepository.update taskId taskData
      else if bool_decide (userRole = USER)
              && bool_decide (assignedToId task = userId)
      then TaskRepository.update taskId (allowedUpdates taskData)
      else throw (UnauthorizedException
                    "You do not have permission to update this task")
  end.

Definition deleteTask (taskId userId : Z) (userRole : UserRole)
    : Async bool :=
  task ← TaskRepository.findById taskId;
  match task with
  | None => throw (NotFoundException
                     ("Task with id " +:+ render taskId +:+ " not found"))
  | Some _ =>
      if bool_decide (userRole <> ADMIN)
      then throw (UnauthorizedException "Only ADMIN can delete tasks")
      else TaskRepository.delete taskId;; mret true
  end.

Definition assignTask (taskId assigneeId userId : Z) (userRole : UserRole)
    : Async PartialTask :=
  task ← TaskRepository.findById taskId;
  match task with
  | None => throw (NotFoundException
                     ("Task with id " +:+ render taskId +:+ " not found"))
  | Some _ =>
      if bool_decide (userRole <> ADMIN) && bool_decide (userRole <> MANAGER)
      then throw (UnauthorizedException
                    "Only ADMIN and MANAGER can assign tasks")
      else
        assignee ← UserRepository.findById assigneeId;
        match assignee with
        | None => throw (NotFoundException
                           ("User with id " +:+ render assigneeId
                            +:+ " not found"))
        | Some _ =>
            TaskRepository.update taskId
              {| p_id := None; p_title := None; p_description := None;
                 p_status := None; p_priority := None;
                 p_assignedToId := Some assigneeId;
                 p_createdBy := None; p_completedAt := None;
                 p_dueDate := None; p_createdAt := None;
                 p_updatedAt := None |}
        end
  end.

Definition updateTaskStatus (taskId : Z) (status : TaskStatus) (userId : Z)
    (userRole : UserRole) : Async PartialTask :=
  task ← TaskRepository.findById taskId;
  match task with
  | None => throw (NotFoundException
                     ("Task with id " +:+ render taskId +:+ " not found"))
  | Some task =>
      let canUpdate :=
        bool_decide (userRole = ADMIN)
        || bool_decide (userRole = MANAGER)
        || (bool_decide (userRole = USER)
            && bool_decide (assignedToId task = userId)) in
      if negb canUpdate
      then throw (UnauthorizedException
                    "You do not have permission to update this task status")
      else
        TaskRepository.update taskId
          {| p_id := None; p_title := None; p_description := None;
             p_status := Some status; p_priority := None;
             p_assignedToId := None; p_createdBy := None;
             p_completedAt := None; p_dueDate := None;
             p_createdAt := None; p_updatedAt := None |}
  end.

Definition updateTaskDueDate (taskId : Z) (dueDate : Date) (userId : Z)
    (userRole : UserRole) : Async PartialTask :=
  task ← TaskRepository.findById taskId;
  match task with
  | None => throw (NotFoundException
                     ("Task with id " +:+ render taskId +:+ " not found"))
  | Some _ =>
      if bool_decide (userRole <> ADMIN) && bool_decide (userRole <> MANAGER)
      then throw (UnauthorizedException
                    "Only ADMIN and MANAGER can update due date")
      else
        TaskRepository.update taskId
          {| p_id := None; p_title := None; p_description := None;
             p_status := None; p_priority := None;
             p_assignedToId := None; p_createdBy := None;
             p_completedAt := None; p_dueDate := Some dueDate;
             p_createdAt := None; p_updatedAt := None |}
  end.

Definition updateTaskPriority (taskId : Z) (priority : TaskPriority)
    (userId : Z) (userRole : UserRole) : Async PartialTask :=
  task ← TaskRepository.findById taskId;
  match task with
  | None => throw (NotFoundException
                     ("Task with id " +:+ render taskId +:+ " not found"))
  | Some _ =>
      if bool_decide (userRole <> ADMIN) && bool_decide (userRole <> MANAGER)
      then throw (UnauthorizedException
                    "Only ADMIN and MANAGER can update task priority")
      else
        TaskRepository.update taskId
          {| p_id := None; p_title := None; p_description := None;
             p_status := None; p_priority := Some priority;
             p_assignedToId := None; p_createdBy := None;
             p_completedAt := None; p_dueDate := None;
             p_createdAt := None; p_updatedAt := None |}
  end.

End TaskService.

(** [services/authService.ts]. *)
Module AuthService.
Section WithConfig.
Variable hmac : string -> jwt.Claims -> string.
Variable secret : string.

Definition verifyToken (token : jwt.Token) : Async jwt.Claims :=
  now ← currentTime; sync (TokenService.verifyToken hmac secret token now).

Definition generateToken (user : User) : Async jwt.Token :=
  now ← currentTime; mret (TokenService.generateToken hmac secret user now).

Definition generateRefreshToken (user : User) : Async jwt.Token :=
  now ← currentTime;
  mret (TokenService.generateRefreshToken hmac secret user now).

Definition refreshToken (token : jwt.Token) : Async TokenPair :=
  try_catch
    (payload ← verifyToken token;
     user ← UserRepository.findById (userId (jwt.payload payload));
     match user with
     | None => throw (UnauthorizedException "User not found")
     | Some user =>
         newToken ← generateToken user;
         newRefreshToken ← generateRefreshToken user;
         mret {| pair_token := newToken;
                 pair_refreshToken := newRefreshToken |}
     end)
    (fun _ => throw (UnauthorizedException "Invalid refresh token")).
End WithConfig.
End AuthService.

End TypeOrm.

(** ** The objection application *)

Module Objection.

(** A task as a query of the model [Task] returns it.  The table of the
    migration names its columns in snake case, the model declares no
    [columnNameMappers] and the knex instance no name mapper, so the
    object has the columns' names for keys. *)
Record TaskRow := mkRow {
  row_id : Z;
  row_title : string;
  row_description : option string;
  row_status : TaskStatus;
  row_priority : TaskPriority;
  assigned_to_id : Z;
  created_by : Z;
  completed_at : option Date;
  created_at : Date;
  updated_at : Date
}.

(** The properties [assignedToId] and [createdBy] that the service reads
    of such an object: it has no key of either name. *)
Definition get_assignedToId (task : TaskRow) : option Z := None.
Definition get_createdBy (task : TaskRow) : option Z := None.

(** [repositories/taskRepository.ts].  Every result is spread into an
    object whose empty description is mapped to [undefined].  An
    [insert] or [patch] is validated against the model's [jsonSchema]
    (a title of 1 to 255 characters) and then names its columns after the
    keys of the payload. *)
Module TaskRepository.

Definition fromDatabase (task : Task) : TaskRow :=
  {| row_id := id task; row_title := title task;
     row_description := match description task with
                        | Some d => if String.eqb d "" then None else Some d
                        | None => None
                        end;
     row_status := status task; row_priority := priority task;
     assigned_to_id := assignedToId task; created_by := createdBy task;
     completed_at := completedAt task; created_at := createdAt task;
     updated_at := updatedAt task |}.

(** The schema asks a title of 1 to 255 characters. *)
Definition valid_title (t : string) : bool :=
  negb (String.eqb t "") && fits_varchar255 t.

Definition passes_schema (d : PartialTask) : bool :=
  match p_title d with
  | Some t => valid_title t
  | None => true
  end.

(** The keys [assignedToId] and [createdBy], always part of the row that
    [create] inserts, are no columns of the table. *)
Definition create (taskData : PartialTask) : Async TaskRow := fun w =>
  match p_title taskData, p_assignedToId taskData, p_createdBy taskData with
  | Some t, Some _, Some _ =>
      if valid_title t
      then (Rejected (Error "column assignedToId of relation tasks does not exist"),
            w)
      else (Rejected (Error "ValidationError: title"), w)
  | _, _, _ => (Rejected (Error "ValidationError: required"), w)
  end.

Definition findById (id' : Z) : Async (option TaskRow) := fun w =>
  (Resolved (fromDatabase <$> tasks w !! id'), w).

(** The raw condition names the columns [assignedToId] and [createdBy]. *)
Definition findByUserId (userId : Z) : Async (list TaskRow) :=
  throw (Error "column assignedToId does not exist").

Definition findAll : Async (list TaskRow) := fun w =>
  (Resolved (map (fun kv => fromDatabase (snd kv)) (map_to_list (tasks w))),
   w).

(** The payload has a key that is no column of the table. *)
Definition names_no_column (d : PartialTask) : bool :=
  match p_assignedToId d, p_createdBy d, p_completedAt d, p_dueDate d,
        p_createdAt d, p_updatedAt d with
  | None, None, None, None, None, None => false
  | _, _, _, _, _, _ => true
  end.

(** [patchAndFetchById]: the patch, then a fetch of the row under the id
    that was asked for, which finds nothing once the patch has given the
    row another id. *)
Definition update (id' : Z) (taskData : PartialTask) : Async TaskRow :=
  fun w =>
    if negb (passes_schema taskData)
    then (Rejected (Error "ValidationError: title"), w)
    else if no_values taskData
    then (Rejected (Error "Empty .update() call detected"), w)
    else if names_no_column taskData
    then (Rejected (Error "column of relation tasks does not exist"), w)
    else
      match tasks w !! id' with
      | Some row =>
          let task := patch row taskData in
          match p_id taskData with
          | None =>
              (Resolved (fromDatabase task),
               set_tasks (fun m => <[id' := task]> m) w)
          | Some key =>
              if bool_decide (key = id')
              then (Resolved (fromDatabase task),
                    set_tasks (fun m => <[id' := task]> m) w)
              else if task_id_free w key
              then (Rejected (Error "Task not found"),
                    set_tasks (fun m => <[key := task]> (base.delete id' m))
                      w)
              else (Rejected
                      (Error "duplicate key value violates unique constraint"),
                    w)
          end
      | None => (Rejected (Error "Task not found"), w)
      end.

Definition delete (id' : Z) : Async unit := fun w =>
  (Resolved tt, set_tasks (base.delete id') w).

Definition findByAssignedUserId (userId : Z) : Async (list TaskRow) :=
  throw (Error "column assignedToId does not exist").

End TaskRepository.

(** [repositories/userRepository.ts]; the model [User] maps its columns'
    names. *)
Module UserRepository.

Definition findById (id' : Z) : Async (option User) := fun w =>
  (Resolved (users w !! id'), w).

End UserRepository.

(** [services/taskService.ts]. *)
Module TaskService.

Definition createTask (taskData : PartialTask) (userId : Z)
    (userRole : UserRole) : Async TaskRow :=
  if bool_decide (userRole <> ADMIN) && bool_decide (userRole <> MANAGER)
  then throw (UnauthorizedException "Only ADMIN and MANAGER can create tasks")
  else
    TaskRepository.create
      {| p_id := p_id taskData;
         p_title := p_title taskData;
         p_description := p_description taskData;
         p_status := p_status taskData;
         p_priority := p_priority taskData;
         p_assignedToId := Some (or_number (p_assignedToId taskData) userId);
         p_createdBy := Some userId;
         p_completedAt := p_completedAt taskData;
         p_dueDate := p_dueDate taskData;
         p_createdAt := p_createdAt taskData;
         p_updatedAt := p_updatedAt taskData |}.

Definition getTaskById (taskId userId : Z) (userRole : UserRole)
    : Async TaskRow :=
  task ← TaskRepository.findById taskId;
  match task with
  | None => throw (NotFoundException
                     ("Task with id " +:+ render taskId +:+ " not found"))
  | Some task =>
      if bool_decide (userRole = ADMIN) then mret task
      else if bool_decide (userRole = MANAGER)
              && (bool_decide (get_createdBy task = Some userId)
                  || bool_decide (get_assignedToId task = Some userId))
      then mret task
      else if bool_decide (userRole = USER)
              && bool_decide (get_assignedToId task = Some userId)
      then mret task
      else throw (UnauthorizedException
                    "You do not have permission to access this task")
  end.

Definition getTasksByUser (userId : Z) (userRole : UserRole)
    : Async (list TaskRow) :=
  match userRole with
  | ADMIN => TaskRepository.findAll
  | MANAGER => TaskRepository.findByUserId userId
  | USER => TaskRepository.findByAssignedUserId userId
  end.

Definition updateTask (taskId : Z) (taskData : PartialTask) (userId : Z)
    (userRole : UserRole) : Async TaskRow :=
  task ← TaskRepository.findById taskId;
  match task with
  | None => throw (NotFoundException
                     ("Task with id " +:+ render taskId +:+ " not found"))
  | Some task =>
      if bool_decide (userRole = ADMIN)
      then TaskRepository.update taskId taskData
      else if bool_decide (userRole = MANAGER)
              && (bool_decide (get_createdBy task = Some userId)
                  || bool_decide (get_assignedToId task = Some userId))
      then TaskRepository.update taskId taskData
      else if bool_decide (userRole = USER)
              && bool_decide (get_assignedToId task = Some userId)
      then TaskRepository.update taskId taskData
      else throw (UnauthorizedException
                    "You do not have permission to update this task")
  end.

Definition deleteTask (taskId userId : Z) (userRole : UserRole)
    : Async bool :=
  task ← TaskRepository.findById taskId;
  match task with
  | None => throw (NotFoundException
                     ("Task with id " +:+ render taskId +:+ " not found"))
  | Some _ =>
      if bool_decide (userRole <> ADMIN)
      then throw (UnauthorizedException "Only ADMIN can delete tasks")
      else TaskRepository.delete taskId;; mret true
  end.

Definition assignTask (taskId assigneeId userId : Z) (userRole : UserRole)
    : Async TaskRow :=
  task ← TaskRepository.findById taskId;
  match task with
  | None => throw (NotFoundException
                     ("Task with id " +:+ render taskId +:+ " not found"))
  | Some _ =>
      if bool_decide (userRole <> ADMIN) && bool_decide (userRole <> MANAGER)
      then throw (UnauthorizedException
                    "Only ADMIN and MANAGER can assign tasks")
      else
        assignee ← UserRepository.findById assigneeId;
        match assignee with
        | None => throw (NotFoundException
                           ("User with id " +:+ render assigneeId
                            +:+ " not found"))
        | Some _ =>
            TaskRepository.update taskId
              {| p_id := None; p_title := None; p_description := None;
                 p_status := None; p_priority := None;
                 p_assignedToId := Some assigneeId;
                 p_createdBy := None; p_completedAt := None;
                 p_dueDate := None; p_createdAt := None;
                 p_updatedAt := None |}
        end
  end.

Definition updateTaskStatus (taskId : Z) (status : TaskStatus) (userId : Z)
    (userRole : UserRole) : Async TaskRow :=
  task ← TaskRepository.findById taskId;
  match task with
  | None => throw (NotFoundException
                     ("Task with id " +:+ render taskId +:+ " not found"))
  | Some task =>
      if bool_decide (userRole = USER)
         && bool_decide (get_assignedToId task <> Some userId)
      then throw (UnauthorizedException
                    "You can only update status of your own tasks")
      else if bool_decide (userRole = MANAGER)
              && bool_decide (get_createdBy task <> Some userId)
              && bool_decide (get_assignedToId task <> Some userId)
      then throw (UnauthorizedException
                    "You do not have permission to update this task")
      else
        TaskRepository.update taskId
          {| p_id := None; p_title := None; p_description := None;
             p_status := Some status; p_priority := None;
             p_assignedToId := None; p_createdBy := None;
             p_completedAt := None; p_dueDate := None;
             p_createdAt := None; p_updatedAt := None |}
  end.

Definition updateTaskDueDate (taskId : Z) (dueDate : Date) (userId : Z)
    (userRole : UserRole) : Async TaskRow :=
  if bool_decide (userRole <> ADMIN) && bool_decide (userRole <> MANAGER)
  then throw (UnauthorizedException
                "Only ADMIN and MANAGER can update task due date")
  else
    task ← TaskRepository.findById taskId;
    match task with
    | None => throw (NotFoundException
                       ("Task with id " +:+ render taskId +:+ " not found"))
    | Some _ =>
        TaskRepository.update taskId
          {| p_id := None; p_title := None; p_description := None;
             p_status := None; p_priority := None;
             p_assignedToId := None; p_createdBy := None;
             p_completedAt := None; p_dueDate := Some dueDate;
             p_createdAt := None; p_updatedAt := None |}
    end.

Definition updateTaskPriority (taskId : Z) (priority : TaskPriority)
    (userId : Z) (userRole : UserRole) : Async TaskRow :=
  if bool_decide (userRole <> ADMIN) && bool_decide (userRole <> MANAGER)
  then throw (UnauthorizedException
                "Only ADMIN and MANAGER can update task priority")
  else
    task ← TaskRepository.findById taskId;
    match task with
    | None => throw (NotFoundException
                       ("Task with id " +:+ render taskId +:+ " not found"))
    | Some _ =>
        TaskRepository.update taskId
          {| p_id := None; p_title := None; p_description := None;
             p_status := None; p_priority := Some priority;
             p_assignedToId := None; p_createdBy := None;
             p_completedAt := None; p_dueDate := None;
             p_createdAt := None; p_updatedAt := None |}
    end.

End TaskService.

End Objection.

(** * The authentication middleware ([@packages/common]) *)

(** The part of an express request the middleware reads and writes.  The
    [Authorization] header is held as its words, the pieces that
    [split(" ")] returns; a word is a token string, so it is a compact
    token or some other string. *)
Record AuthRequest := mkRequest {
  authorization : option (list jwt.Token);
  req_userId : option Z;
  req_email : option string;
  req_role : option UserRole
}.

(** What the middleware hands to express: [next()] or [next(error)]. *)
Inductive NextCall :=
| Next
| NextError (error : Exception).

(** The object a [UserFinder] resolves with. *)
Record FoundUser := mkFound {
  found_id : Z;
  found_isActive : bool
}.

Definition UserFinder : Type := Z -> Async (option FoundUser).

(** [!token] on a string: the empty string is falsy. *)
Definition empty_token (token : jwt.Token) : bool :=
  match token with
  | jwt.Malformed raw => String.eqb raw ""
  | jwt.Compact _ _ => false
  end.

(** The inner handler: an [UnauthorizedException] is rethrown, anything
    else is replaced. *)
Definition rethrow (error : Exception) : Exception :=
  match error with
  | UnauthorizedException _ => error
  | _ => UnauthorizedException "Invalid or expired token"
  end.

Definition assign_identity (req : AuthRequest) (decoded : jwt.Claims)
    : AuthRequest :=
  {| authorization := authorization req;
     req_userId := Some (userId (jwt.payload decoded));
     req_email := Some (email (jwt.payload decoded));
     req_role := Some (role (jwt.payload decoded)) |}.

Module authMiddleware.
Section WithConfig.
Variable hmac : string -> jwt.Claims -> string.
Variable secret : string.

(** The check of the subject, run when a finder was supplied. *)
Definition checkUser (findUserById : UserFinder) (decoded : jwt.Claims)
    : Async unit :=
  user ← findUserById (userId (jwt.payload decoded));
  match user with
  | None => throw (UnauthorizedException "User no longer exists")
  | Some user =>
      if negb (found_isActive user)
      then throw (UnauthorizedException "User account is inactive")
      else mret tt
  end.

(** The request as the middleware leaves it, and its call of [next].  The
    identity is written to the request as soon as the token has verified,
    before the subject is looked up. *)
Definition createAuthMiddleware (findUserById : option UserFinder)
    (req : AuthRequest) : Async (AuthRequest * NextCall) :=
  let required :=
    mret (req, NextError (UnauthorizedException "Access token is required")) in
  match authorization req ≫= (fun words => words !! 1%nat) with
  | None => required
  | Some token =>
      if empty_token token then required
      else
        now ← currentTime;
        match TokenService.verifyToken hmac secret token now with
        | Rejected error => mret (req, NextError (rethrow error))
        | Resolved decoded =>
            let req := assign_identity req decoded in
            match findUserById with
            | None => mret (req, Next)
            | Some findUserById =>
                try_catch
                  (checkUser findUserById decoded;; mret (req, Next))
                  (fun error => mret (req, NextError (rethrow error)))
            end
        end
  end.

(** The deprecated export, which verifies the token only. *)
Definition authenticate : AuthRequest -> Async (AuthRequest * NextCall) :=
  createAuthMiddleware None.

End WithConfig.

(** [authorize(...roles)] throws instead of calling [next(error)]. *)
Definition authorize (roles : list UserRole) (req : AuthRequest)
    : Outcome NextCall :=
  match req_role req with
  | None => Rejected (UnauthorizedException "Access denied")
  | Some held =>
      if bool_decide (held ∈ roles)
      then Resolved Next
      else Rejected (UnauthorizedException "Insufficient permissions")
  end.

End authMiddleware.

(** [apps/drizzle/src/middleware/auth.ts]. *)
Module DrizzleMiddleware.

Definition finder : UserFinder := fun id' =>
  user ← Drizzle.UserRepository.findById id';
  match user with
  | None => mret None
  | Some user =>
      mret (Some {| found_id := user_id user;
                    found_isActive := user_isActive user |})
  end.

Definition authenticate (hmac : string -> jwt.Claims -> string)
    (secret : string) : AuthRequest -> Async (AuthRequest * NextCall) :=
  authMiddleware.createAuthMiddleware hmac secret (Some finder).

End DrizzleMiddleware.

(** The typeorm application's [middleware/auth.ts]; its repository finds
    active users only. *)
Module TypeOrmMiddleware.

Definition finder : UserFinder := fun id' =>
  user ← TypeOrm.UserRepository.findById id';
  match user with
  | None => mret None
  | Some user =>
      mret (Some {| found_id := user_id user;
                    found_isActive := user_isActive user |})
  end.

Definition authenticate (hmac : string -> jwt.Claims -> string)
    (secret : string) : AuthRequest -> Async (AuthRequest * NextCall) :=
  authMiddleware.createAuthMiddleware hmac secret (Some finder).

End TypeOrmMiddleware.

(** A request carrying [Authorization: <scheme> <token>]. *)
Definition bearer (scheme : string) (token : jwt.Token) : AuthRequest :=
  {| authorization := Some [jwt.Malformed scheme; token];
     req_userId := None; req_email := None; req_role := None |}.

(** * Users of the drizzle application *)

(** [Partial<User>]. *)
Record PartialUser := mkPartialUser {
  pu_id : option Z;
  pu_email : option string;
  pu_firstName : option string;
  pu_lastName : option string;
  pu_isActive : option bool;
  pu_role : option UserRole;
  pu_password : option string;
  pu_createdAt : option Date;
  pu_updatedAt : option Date
}.

Definition empty_partial_user : PartialUser :=
  mkPartialUser None None None None None None None None None.

(** [!s] on an optional string: [undefined] and the empty string. *)
Definition missing (s : option string) : bool :=
  match s with
  | None => true
  | Some v => String.eqb v ""
  end.

(** An [UPDATE users SET ...] of the defined keys. *)
Definition patch_user (row : User) (d : PartialUser) : User :=
  {| user_id := or_default (pu_id d) (user_id row);
     user_email := or_default (pu_email d) (user_email row);
     user_firstName := or_default (pu_firstName d) (user_firstName row);
     user_lastName := match pu_lastName d with
                      | Some l => Some l
                      | None => user_lastName row
                      end;
     user_isActive := or_default (pu_isActive d) (user_isActive row);
     user_role := or_default (pu_role d) (user_role row);
     user_password := or_default (pu_password d) (user_password row);
     user_createdAt := or_default (pu_createdAt d) (user_createdAt row);
     user_updatedAt := or_default (pu_updatedAt d) (user_updatedAt row) |}.

Definition set_users (f : gmap Z User -> gmap Z User) (w : World) : World :=
  {| tasks := tasks w; users := f (users w);
     tasks_id_seq := tasks_id_seq w; clock := clock w |}.

(** The rows of the users table, in the engine's order. *)
Definition user_rows (w : World) : list User :=
  map snd (map_to_list (users w)).

(** The statements the drizzle services and repositories send to the
    users table. *)
Module DrizzleUserTable.

(** [INSERT INTO users ... RETURNING *] under the id [newId] that the
    table's serial hands out. *)
Definition insert (newId : Z) (email firstName : string)
    (lastName : option string) (password : string) (role : UserRole)
    (isActive : bool) : Async User :=
  fun w =>
    let newUser :=
      {| user_id := newId;
         user_email := email;
         user_firstName := firstName;
         user_lastName := lastName;
         user_isActive := isActive;
         user_role := role;
         user_password := password;
         user_createdAt := clock w;
         user_updatedAt := clock w |} in
    (Resolved newUser, set_users (fun m => <[newId := newUser]> m) w).

(** [UPDATE users SET ... WHERE id = ... RETURNING *]: the first returned
    row, [undefined] when no row has the id. *)
Definition update (id' : Z) (d : PartialUser) : Async (option User) :=
  fun w =>
    match users w !! id' with
    | Some row =>
        let updatedUser := patch_user row d in
        (Resolved (Some updatedUser),
         set_users (fun m => <[user_id updatedUser := updatedUser]>
                               (delete id' m)) w)
    | None => (Resolved None, w)
    end.

(** [SELECT * FROM users WHERE email = ...]. *)
Definition selectByEmail (email : string) : Async (list User) := fun w =>
  (Resolved (filter (fun u => user_email u = email) (user_rows w)), w).

End DrizzleUserTable.

(** [repositories/userRepository.ts], the functions beside [findById]. *)
Module DrizzleUserRepository.
Section WithSerial.
(** The value the serial of the users table hands out next; the engine
    keeps it, outside the tables. *)
Variable users_id_seq : World -> Z.

Definition create (userData : PartialUser) : Async User :=
  match pu_email userData, pu_firstName userData, pu_password userData with
  | Some email, Some firstName, Some password =>
      newId ← (fun w => (Resolved (users_id_seq w), w));
      DrizzleUserTable.insert newId email firstName (pu_lastName userData)
        password
        (or_default (pu_role userData) USER)
        (or_default (pu_isActive userData) true)
  | _, _, _ => throw (Error "null value violates not-null constraint")
  end.

End WithSerial.

(** [.limit(1)]: the first matching row. *)
Definition findByEmail (email : string) : Async (option User) :=
  user ← DrizzleUserTable.selectByEmail email;
  mret (head user).

Definition update (id' : Z) (userData : PartialUser) : Async User :=
  updatedUser ← DrizzleUserTable.update id' userData;
  match updatedUser with
  | None => throw (Error "User not found")
  | Some updatedUser => mret updatedUser
  end.

End DrizzleUserRepository.

(** [services/userService.ts]; it queries the table itself.  The
    operations that return the first row of an [UPDATE ... RETURNING]
    return it as it comes, [undefined] included. *)
Module DrizzleUserService.

Definition userNotFound (id' : Z) : Exception :=
  NotFoundException ("User with id " +:+ render id' +:+ " not found").

Section WithSerial.
Variable users_id_seq : World -> Z.

Definition createUser (userData : PartialUser) : Async User :=
  match pu_email userData, pu_firstName userData with
  | Some email, Some firstName =>
      if String.eqb email "" || String.eqb firstName ""
      then throw (BadRequestException "Email and firstName are required")
      else
        existingUsers ← DrizzleUserTable.selectByEmail email;
        if (0 <? Z.of_nat (length existingUsers))
        then throw (BadRequestException "User with this email already exists")
        else
          match pu_password userData with
          | None => throw (Error "null value violates not-null constraint")
          | Some password =>
              newId ← (fun w => (Resolved (users_id_seq w), w));
              DrizzleUserTable.insert newId email firstName
                (Some (or_string (pu_lastName userData) ""))
                password
                (or_default (pu_role userData) USER)
                (or_default (pu_isActive userData) true)
          end
  | _, _ => throw (BadRequestException "Email and firstName are required")
  end.

End WithSerial.

(** [SELECT ... WHERE id = ... AND is_active = true]. *)
Definition getUserById (id' : Z) : Async User := fun w =>
  match users w !! id' with
  | Some user =>
      if user_isActive user then (Resolved user, w)
      else (Rejected (userNotFound id'), w)
  | None => (Rejected (userNotFound id'), w)
  end.

Definition getAllUsers : Async (list User) := fun w =>
  (Resolved (filter (fun u => user_isActive u = true) (user_rows w)), w).

(** The existence check of the writing operations: by id alone. *)
Definition existingUser (id' : Z) : Async User := fun w =>
  match users w !! id' with
  | Some user => (Resolved user, w)
  | None => (Rejected (userNotFound id'), w)
  end.

Definition updateUser (id' : Z) (userData : PartialUser)
    : Async (option User) :=
  existingUser id';;
  DrizzleUserTable.update id' userData.

Definition changePassword (id' : Z) (password : string) : Async unit :=
  existingUser id';;
  DrizzleUserTable.update id'
    {| pu_id := None; pu_email := None; pu_firstName := None;
       pu_lastName := None; pu_isActive := None; pu_role := None;
       pu_password := Some password; pu_createdAt := None;
       pu_updatedAt := None |};;
  mret tt.

Definition updateUserRole (id' : Z) (role : UserRole)
    : Async (option User) :=
  existingUser id';;
  DrizzleUserTable.update id'
    {| pu_id := None; pu_email := None; pu_firstName := None;
       pu_lastName := None; pu_isActive := None; pu_role := Some role;
       pu_password := None; pu_createdAt := None; pu_updatedAt := None |}.

Definition updateUserStatus (id' : Z) (isActive : bool)
    : Async (option User) :=
  existingUser id';;
  DrizzleUserTable.update id'
    {| pu_id := None; pu_email := None; pu_firstName := None;
       pu_lastName := None; pu_isActive := Some isActive; pu_role := None;
       pu_password := None; pu_createdAt := None; pu_updatedAt := None |}.

Definition deleteUser (id' : Z) : Async bool :=
  existingUser id';;
  DrizzleUserTable.update id'
    {| pu_id := None; pu_email := None; pu_firstName := None;
       pu_lastName := None; pu_isActive := Some false; pu_role := None;
       pu_password := None; pu_createdAt := None; pu_updatedAt := None |};;
  mret true.

End DrizzleUserService.

(** What [register] and [login] resolve with. *)
Record Session := mkSession {
  session_user : User;
  session_token : jwt.Token;
  session_refreshToken : jwt.Token
}.

(** [services/authService.ts], the functions beside [refreshToken].  The
    [bcryptjs] library is a parameter: [bcrypt_hash] with its number of
    rounds, [bcrypt_compare] of a password with a stored hash. *)
Module DrizzleAuthService.
Section WithConfig.
Variable hmac : string -> jwt.Claims -> string.
Variable secret : string.
Variable bcrypt_hash : string -> Z -> string.
Variable bcrypt_compare : string -> string -> bool.
Variable users_id_seq : World -> Z.

Definition register (userData : PartialUser) : Async Session :=
  match pu_email userData, pu_firstName userData, pu_password userData,
        pu_lastName userData with
  | Some email, Some firstName, Some password, Some lastName =>
      if String.eqb email "" || String.eqb firstName ""
         || String.eqb password "" || String.eqb lastName ""
      then throw (BadRequestException
                    "Email, firstName, lastName, and password are required")
      else
        existingUser ← DrizzleUserRepository.findByEmail email;
        match existingUser with
        | Some _ =>
            throw (BadRequestException "User with this email already exists")
        | None =>
            let hashedPassword := bcrypt_hash password 12 in
            user ← DrizzleUserRepository.create users_id_seq
                     {| pu_id := pu_id userData;
                        pu_email := pu_email userData;
                        pu_firstName := pu_firstName userData;
                        pu_lastName := pu_lastName userData;
                        pu_isActive := pu_isActive userData;
                        pu_role := Some (or_default (pu_role userData) USER);
                        pu_password := Some hashedPassword;
                        pu_createdAt := pu_createdAt userData;
                        pu_updatedAt := pu_updatedAt userData |};
            token ← Drizzle.AuthService.generateToken hmac secret user;
            refreshToken ←
              Drizzle.AuthService.generateRefreshToken hmac secret user;
            mret {| session_user := user; session_token := token;
                    session_refreshToken := refreshToken |}
        end
  | _, _, _, _ =>
      throw (BadRequestException
               "Email, firstName, lastName, and password are required")
  end.

Definition login (email password : string) : Async Session :=
  user ← DrizzleUserRepository.findByEmail email;
  match user with
  | None => throw (UnauthorizedException "Invalid email or password")
  | Some user =>
      if negb (bcrypt_compare password (user_password user))
      then throw (UnauthorizedException "Invalid email or password")
      else
        token ← Drizzle.AuthService.generateToken hmac secret user;
        refreshToken ←
          Drizzle.AuthService.generateRefreshToken hmac secret user;
        mret {| session_user := user; session_token := token;
                session_refreshToken := refreshToken |}
  end.

(** Tokens are not tracked by the server. *)
Definition logout (userId : Z) : Async unit := mret tt.

Definition verifyToken (token : jwt.Token) : Async jwt.Claims :=
  now ← currentTime; sync (TokenService.verifyToken hmac secret token now).

End WithConfig.
End DrizzleAuthService.

(** * Properties *)

Ltac unfold_async :=
  unfold mbind, mret, Async_bind, Async_ret, bind, ret, throw, try_catch,
    sync, currentTime.

(** Decide every role and ownership test in the goal. *)
Ltac policy :=
  repeat case_bool_decide; cbn; try congruence; try tauto; eauto.

(** Evaluate the tests on closed terms, such as a role against a role. *)
Ltac decide_closed :=
  repeat match goal with
  | |- context [@bool_decide ?P ?d] =>
      let v := eval vm_compute in (@bool_decide P d) in
      match v with true => idtac | false => idtac end;
      change (@bool_decide P d) with v
  end; cbn.

(** ** Fixtures *)

Definition sample_task : Task :=
  {| id := 1; title := "Write report"; description := None;
     status := PENDING; priority := LOW;
     assignedToId := 3; createdBy := 1; completedAt := None;
     createdAt := 0; updatedAt := 0 |}.

Definition sample_user (id' : Z) (r : UserRole) (active : bool) : User :=
  {| user_id := id'; user_email := "user@example.com";
     user_firstName := "Sam"; user_lastName := None;
     user_isActive := active; user_role := r; user_password := "hash";
     user_createdAt := 0; user_updatedAt := 0 |}.

(** One task, created by user 1 and assigned to user 3; user 2 is a
    manager with no tie to it, user 7 has been deactivated. *)
Definition sample_world : World :=
  {| tasks := {[ 1 := sample_task ]};
     users := {[ 1 := sample_user 1 ADMIN true;
                 2 := sample_user 2 MANAGER true;
                 3 := sample_user 3 USER true;
                 7 := sample_user 7 USER false ]};
     tasks_id_seq := 2;
     clock := 100 |}.

(** ** Status changes by a MANAGER *)

Lemma drizzle_updateTaskStatus_manager w taskId t st uid :
  tasks w !! taskId = Some t ->
  ((exists t' w',
      Drizzle.TaskService.updateTaskStatus taskId st uid MANAGER w
      = (Resolved t', w'))
   <-> createdBy t = uid \/ assignedToId t = uid)
  /\ (~ (createdBy t = uid \/ assignedToId t = uid) ->
      exists m,
        Drizzle.TaskService.updateTaskStatus taskId st uid MANAGER w
        = (Rejected (UnauthorizedException m), w)).
Proof.
  intros Ht.
  unfold Drizzle.TaskService.updateTaskStatus,
    Drizzle.TaskRepository.findById, Drizzle.TaskRepository.update.
  unfold_async. rewrite Ht. cbn.
  split; [split|].
  - intros (t' & w' & H). revert H. policy.
  - intros Hown. policy; rewrite ?Ht; decide_closed; eauto.
  - intros Hno. policy.
Qed.

(** The objection service tests [createdBy] and [assignedToId] of an
    object that has neither key, so it refuses every MANAGER, the creator
    and the assignee included. *)
Lemma objection_updateTaskStatus_manager w taskId t st uid :
  tasks w !! taskId = Some t ->
  Objection.TaskService.updateTaskStatus taskId st uid MANAGER w
  = (Rejected (UnauthorizedException
                 "You do not have permission to update this task"), w).
Proof.
  intros Ht.
  unfold Objection.TaskService.updateTaskStatus,
    Objection.TaskRepository.findById.
  unfold_async. rewrite Ht. reflexivity.
Qed.

(** In the typeorm service the MANAGER role alone passes the check: the
    call resolves with an entity of the new status, which is the status
    of the stored row. *)
Lemma typeorm_updateTaskStatus_manager w taskId t st uid :
  tasks w !! taskId = Some t ->
  exists t' w',
    TypeOrm.TaskService.updateTaskStatus taskId st uid MANAGER w
    = (Resolved t', w')
    /\ p_status t' = Some st
    /\ status <$> tasks w' !! taskId = Some st.
Proof.
  intros Ht.
  unfold TypeOrm.TaskService.updateTaskStatus,
    TypeOrm.TaskRepository.findById, TypeOrm.TaskRepository.update.
  unfold_async. rewrite Ht. decide_closed.
  rewrite Ht. cbn. case_bool_decide as E; cbn.
  - do 2 eexists. split; [reflexivity|]. split; [reflexivity|].
    rewrite Ht. cbn. rewrite <- E at 1. reflexivity.
  - do 2 eexists. split; [reflexivity|]. split; [reflexivity|].
    cbn. rewrite lookup_insert_eq. reflexivity.
Qed.

(** C1.  The typeorm task service lets a MANAGER who neither created the
    task nor is assigned to it change its status: manager 2 completes the
    task created by user 1 and assigned to user 3, the call resolving with
    the entity that carries the new status and the row being stored as
    COMPLETED, where the drizzle and objection services reject the same
    call. *)
Theorem typeorm_manager_changes_status_of_foreign_task :
  createdBy sample_task <> 2 /\ assignedToId sample_task <> 2
  /\ tasks sample_world !! 1 = Some sample_task
  /\ (exists w',
        TypeOrm.TaskService.updateTaskStatus 1 COMPLETED 2 MANAGER sample_world
        = (Resolved
             {| p_id := Some 1; p_title := None; p_description := None;
                p_status := Some COMPLETED; p_priority := None;
                p_assignedToId := None; p_createdBy := Some 1;
                p_completedAt := None; p_dueDate := None;
                p_createdAt := Some 0; p_updatedAt := Some 100 |}, w')
        /\ tasks w' !! 1
           = Some {| id := 1; title := "Write report"; description := None;
                     status := COMPLETED; priority := LOW;
                     assignedToId := 3; createdBy := 1; completedAt := None;
                     createdAt := 0; updatedAt := 100 |})
  /\ Drizzle.TaskService.updateTaskStatus 1 COMPLETED 2 MANAGER sample_world
     = (Rejected (UnauthorizedException
                    "You do not have permission to update this task"),
        sample_world)
  /\ Objection.TaskService.updateTaskStatus 1 COMPLETED 2 MANAGER sample_world
     = (Rejected (UnauthorizedException
                    "You do not have permission to update this task"),
        sample_world).
Proof.
  repeat split; try (cbn; lia); try reflexivity.
  eexists. split; vm_compute; reflexivity.
Qed.

(** ** Operations on a task id that does not exist *)

Definition taskNotFound (taskId : Z) : Exception :=
  NotFoundException ("Task with id " +:+ render taskId +:+ " not found").

Ltac missing_task H :=
  unfold taskNotFound; unfold_async;
  repeat (case_bool_decide; try congruence); cbn; rewrite ?H; reflexivity.

(** Reading, updating, deleting, assigning and changing the status look
    the task up first, whatever the role. *)
Lemma drizzle_missing_task_lookup_first w taskId uid r :
  tasks w !! taskId = None ->
  Drizzle.TaskService.getTaskById taskId uid r w
    = (Rejected (taskNotFound taskId), w)
  /\ (forall d, Drizzle.TaskService.updateTask taskId d uid r w
                = (Rejected (taskNotFound taskId), w))
  /\ Drizzle.TaskService.deleteTask taskId uid r w
    = (Rejected (taskNotFound taskId), w)
  /\ (forall a, Drizzle.TaskService.assignTask taskId a uid r w
                = (Rejected (taskNotFound taskId), w))
  /\ (forall s, Drizzle.TaskService.updateTaskStatus taskId s uid r w
                = (Rejected (taskNotFound taskId), w)).
Proof.
  intros H. repeat split; intros;
    unfold Drizzle.TaskService.getTaskById, Drizzle.TaskService.updateTask,
      Drizzle.TaskService.deleteTask, Drizzle.TaskService.assignTask,
      Drizzle.TaskService.updateTaskStatus, Drizzle.TaskRepository.findById;
    missing_task H.
Qed.

(** The typeorm service does so in the two remaining operations as well. *)
Lemma typeorm_missing_task_lookup_first w taskId uid r :
  tasks w !! taskId = None ->
  (forall d, TypeOrm.TaskService.updateTaskDueDate taskId d uid r w
             = (Rejected (taskNotFound taskId), w))
  /\ (forall p, TypeOrm.TaskService.updateTaskPriority taskId p uid r w
                = (Rejected (taskNotFound taskId), w)).
Proof.
  intros H. split; intros;
    unfold TypeOrm.TaskService.updateTaskDueDate,
      TypeOrm.TaskService.updateTaskPriority, TypeOrm.TaskRepository.findById;
    missing_task H.
Qed.

(** In the drizzle and objection services the due date and the priority
    are gated on the role before the task is looked up. *)
Lemma drizzle_due_date_priority_role_first w taskId uid :
  (forall d, Drizzle.TaskService.updateTaskDueDate taskId d uid USER w
             = (Rejected (UnauthorizedException
                            "Only ADMIN and MANAGER can update task due date"),
                w))
  /\ (forall p, Drizzle.TaskService.updateTaskPriority taskId p uid USER w
                = (Rejected (UnauthorizedException
                               "Only ADMIN and MANAGER can update task priority"),
                   w)).
Proof. split; reflexivity. Qed.

Lemma objection_due_date_priority_role_first w taskId uid :
  (forall d, Objection.TaskService.updateTaskDueDate taskId d uid USER w
             = (Rejected (UnauthorizedException
                            "Only ADMIN and MANAGER can update task due date"),
                w))
  /\ (forall p, Objection.TaskService.updateTaskPriority taskId p uid USER w
                = (Rejected (UnauthorizedException
                               "Only ADMIN and MANAGER can update task priority"),
                   w)).
Proof. split; reflexivity. Qed.

Lemma drizzle_due_date_priority_missing_task w taskId uid r :
  r <> USER ->
  tasks w !! taskId = None ->
  (forall d, Drizzle.TaskService.updateTaskDueDate taskId d uid r w
             = (Rejected (taskNotFound taskId), w))
  /\ (forall p, Drizzle.TaskService.updateTaskPriority taskId p uid r w
                = (Rejected (taskNotFound taskId), w)).
Proof.
  intros Hr H. destruct r; try congruence; split; intros;
    unfold Drizzle.TaskService.updateTaskDueDate,
      Drizzle.TaskService.updateTaskPriority, Drizzle.TaskRepository.findById;
    missing_task H.
Qed.

(** C2.  There is no task 999, and a USER who asks the drizzle or the
    objection service to change its due date or its priority is answered
    with [UnauthorizedException], not with [NotFoundException]; the
    typeorm service answers the same calls with [NotFoundException]. *)
Theorem user_changing_missing_task_is_unauthorized :
  tasks sample_world !! 999 = None
  /\ Drizzle.TaskService.updateTaskDueDate 999 500 3 USER sample_world
     = (Rejected (UnauthorizedException
                    "Only ADMIN and MANAGER can update task due date"),
        sample_world)
  /\ Drizzle.TaskService.updateTaskPriority 999 HIGH 3 USER sample_world
     = (Rejected (UnauthorizedException
                    "Only ADMIN and MANAGER can update task priority"),
        sample_world)
  /\ Objection.TaskService.updateTaskDueDate 999 500 3 USER sample_world
     = (Rejected (UnauthorizedException
                    "Only ADMIN and MANAGER can update task due date"),
        sample_world)
  /\ Objection.TaskService.updateTaskPriority 999 HIGH 3 USER sample_world
     = (Rejected (UnauthorizedException
                    "Only ADMIN and MANAGER can update task priority"),
        sample_world)
  /\ TypeOrm.TaskService.updateTaskDueDate 999 500 3 USER sample_world
     = (Rejected (NotFoundException "Task with id 999 not found"),
        sample_world)
  /\ TypeOrm.TaskService.updateTaskPriority 999 HIGH 3 USER sample_world
     = (Rejected (NotFoundException "Task with id 999 not found"),
        sample_world).
Proof. repeat split; reflexivity. Qed.

(** ** A USER's general update *)

(** The row [t'] agrees with [t] on every column other than [status],
    [completedAt] and the modification time. *)
Definition same_outside_status (t t' : Task) : Prop :=
  id t' = id t /\ title t' = title t /\ description t' = description t
  /\ priority t' = priority t /\ assignedToId t' = assignedToId t
  /\ createdBy t' = createdBy t /\ createdAt t' = createdAt t.

(** What the payload asks for in the two columns a USER may write. *)
Definition status_applied (taskData : PartialTask) (t t' : Task) : Prop :=
  status t' = or_default (p_status taskData) (status t)
  /\ completedAt t' = match p_completedAt taskData with
                      | Some c => Some c
                      | None => completedAt t
                      end.

(** Only the row under [taskId] may differ between the two databases. *)
Definition only_row_changed (taskId : Z) (w w' : World) : Prop :=
  (forall k, k <> taskId -> tasks w' !! k = tasks w !! k)
  /\ users w' = users w.

(** With a status or a completion date in the payload the drizzle
    service writes these two columns and nothing else. *)
Lemma drizzle_user_update_narrowed w taskId t taskData :
  tasks w !! taskId = Some t ->
  p_status taskData <> None \/ p_completedAt taskData <> None ->
  exists t' w',
    Drizzle.TaskService.updateTask taskId taskData (assignedToId t) USER w
    = (Resolved t', w')
    /\ tasks w' !! taskId = Some t'
    /\ status_applied taskData t t'
    /\ same_outside_status t t' /\ updatedAt t' = updatedAt t
    /\ only_row_changed taskId w w'.
Proof.
  intros Ht Hv.
  unfold Drizzle.TaskService.updateTask, Drizzle.TaskRepository.findById,
    Drizzle.TaskRepository.update.
  unfold_async. rewrite Ht. decide_closed.
  rewrite (bool_decide_eq_true_2 (assignedToId t = assignedToId t) eq_refl).
  unfold Drizzle.TaskService.allowedUpdates, status_applied.
  destruct (p_status taskData) eqn:Es, (p_completedAt taskData) eqn:Ec;
    try (destruct Hv; congruence);
    cbn; rewrite Ht; decide_closed;
    (do 2 eexists; split; [reflexivity|];
     cbn; rewrite lookup_insert_eq;
     repeat split; try reflexivity;
     intros k Hk; cbn; apply lookup_insert_ne; congruence).
Qed.

(** Without either, the narrowed payload has no value left and the
    query builder refuses it. *)
Lemma drizzle_user_update_without_values w taskId t taskData :
  tasks w !! taskId = Some t ->
  p_status taskData = None ->
  p_completedAt taskData = None ->
  exists m,
    Drizzle.TaskService.updateTask taskId taskData (assignedToId t) USER w
    = (Rejected (Error m), w).
Proof.
  intros Ht Hs Hc.
  unfold Drizzle.TaskService.updateTask, Drizzle.TaskRepository.findById,
    Drizzle.TaskRepository.update.
  unfold_async. rewrite Ht. decide_closed.
  rewrite (bool_decide_eq_true_2 (assignedToId t = assignedToId t) eq_refl).
  cbn. rewrite Hs, Hc. cbn. eexists. reflexivity.
Qed.

(** The typeorm service resolves for every payload; the entity it
    returns has the payload's status and completion date and no title or
    priority, and the stored row changes in the two columns alone. *)
Lemma typeorm_user_update_narrowed w taskId t taskData :
  tasks w !! taskId = Some t ->
  exists e t' w',
    TypeOrm.TaskService.updateTask taskId taskData (assignedToId t) USER w
    = (Resolved e, w')
    /\ p_status e = p_status taskData
    /\ p_completedAt e = p_completedAt taskData
    /\ p_title e = None /\ p_priority e = None
    /\ tasks w' !! taskId = Some t'
    /\ status_applied taskData t t'
    /\ same_outside_status t t'
    /\ only_row_changed taskId w w'.
Proof.
  intros Ht.
  unfold TypeOrm.TaskService.updateTask, TypeOrm.TaskRepository.findById,
    TypeOrm.TaskRepository.update.
  unfold_async. rewrite Ht. decide_closed.
  rewrite (bool_decide_eq_true_2 (assignedToId t = assignedToId t) eq_refl).
  cbn. rewrite Ht. cbn.
  case_bool_decide as E; cbn.
  - exists (TypeOrm.TaskRepository.mapToTask
              {| p_id := None; p_title := None; p_description := None;
                 p_status := p_status taskData; p_priority := None;
                 p_assignedToId := None; p_createdBy := None;
                 p_completedAt := p_completedAt taskData; p_dueDate := None;
                 p_createdAt := None; p_updatedAt := None |} t), t, w.
    split; [reflexivity|]. repeat split; try reflexivity; try assumption.
    + pose proof (f_equal status E) as Es. symmetry. exact Es.
    + pose proof (f_equal completedAt E) as Ec. symmetry. exact Ec.
  - do 3 eexists. split; [reflexivity|].
    cbn. rewrite lookup_insert_eq.
    repeat split; try reflexivity.
    intros k Hk. cbn. apply lookup_insert_ne. congruence.
Qed.

(** The objection service tests [assignedToId] of an object that has no
    such key: it refuses every USER, the assignee included. *)
Lemma objection_user_update_refused w taskId t taskData uid :
  tasks w !! taskId = Some t ->
  Objection.TaskService.updateTask taskId taskData uid USER w
  = (Rejected (UnauthorizedException
                 "You do not have permission to update this task"), w).
Proof.
  intros Ht.
  unfold Objection.TaskService.updateTask, Objection.TaskRepository.findById.
  unfold_async. rewrite Ht. reflexivity.
Qed.

(** The scenario of the specification: status, title and priority are
    submitted, and only the status arrives. *)
Definition sample_payload : PartialTask :=
  {| p_id := None; p_title := Some "new title"; p_description := None;
     p_status := Some COMPLETED; p_priority := Some URGENT;
     p_assignedToId := None; p_createdBy := None; p_completedAt := None;
     p_dueDate := None; p_createdAt := None; p_updatedAt := None |}.

Example drizzle_user_update_scenario :
  fst (Drizzle.TaskService.updateTask 1 sample_payload 3 USER sample_world)
  = Resolved
      {| id := 1; title := "Write report"; description := None;
         status := COMPLETED; priority := LOW;
         assignedToId := 3; createdBy := 1; completedAt := None;
         createdAt := 0; updatedAt := 0 |}.
Proof. reflexivity. Qed.

Example typeorm_user_update_scenario :
  tasks (snd (TypeOrm.TaskService.updateTask 1 sample_payload 3 USER
                sample_world)) !! 1
  = Some {| id := 1; title := "Write report"; description := None;
            status := COMPLETED; priority := LOW;
            assignedToId := 3; createdBy := 1; completedAt := None;
            createdAt := 0; updatedAt := 100 |}.
Proof. vm_compute. reflexivity. Qed.

(** A payload that asks for a new title only. *)
Definition title_only : PartialTask :=
  {| p_id := None; p_title := Some "new title"; p_description := None;
     p_status := None; p_priority := None;
     p_assignedToId := None; p_createdBy := None; p_completedAt := None;
     p_dueDate := None; p_createdAt := None; p_updatedAt := None |}.

(** C3.  A USER's general update of a task assigned to them does not
    always succeed.  User 3 is the assignee of task 1.  When the payload
    asks for a new title only, the drizzle service drops the title and
    is left with no value to write: the call rejects with an error,
    nothing written, where the typeorm service resolves on the same
    input, nothing written either.  The objection service rejects the
    assignee's update with [UnauthorizedException] even when the payload
    carries a status. *)
Theorem user_update_of_title_alone_is_an_error :
  tasks sample_world !! 1 = Some sample_task
  /\ assignedToId sample_task = 3
  /\ (exists m,
        Drizzle.TaskService.updateTask 1 title_only 3 USER sample_world
        = (Rejected (Error m), sample_world))
  /\ (exists e,
        TypeOrm.TaskService.updateTask 1 title_only 3 USER sample_world
        = (Resolved e, sample_world))
  /\ Objection.TaskService.updateTask 1 sample_payload 3 USER sample_world
     = (Rejected (UnauthorizedException
                    "You do not have permission to update this task"),
        sample_world).
Proof.
  split; [reflexivity|]. split; [reflexivity|].
  split; [eexists; reflexivity|].
  split; [eexists; vm_compute; reflexivity|].
  reflexivity.
Qed.

(** ** Assignment to a user that cannot be found *)

Definition userNotFound (assigneeId : Z) : Exception :=
  NotFoundException ("User with id " +:+ render assigneeId +:+ " not found").

Lemma drizzle_assign_missing_user w taskId t assigneeId uid r :
  tasks w !! taskId = Some t ->
  Drizzle.UserRepository.findById assigneeId w = (Resolved None, w) ->
  (r = ADMIN \/ r = MANAGER ->
   Drizzle.TaskService.assignTask taskId assigneeId uid r w
   = (Rejected (userNotFound assigneeId), w))
  /\ (r = USER ->
      Drizzle.TaskService.assignTask taskId assigneeId uid r w
      = (Rejected (UnauthorizedException
                     "Only ADMIN and MANAGER can assign tasks"), w)).
Proof.
  intros Ht Hu. injection Hu as Hu.
  unfold Drizzle.TaskService.assignTask, Drizzle.TaskRepository.findById,
    Drizzle.UserRepository.findById.
  unfold_async. rewrite Ht.
  split; intros Hr; [destruct Hr|]; subst r; decide_closed;
    rewrite ?Hu; reflexivity.
Qed.

Lemma typeorm_assign_missing_user w taskId t assigneeId uid r :
  tasks w !! taskId = Some t ->
  TypeOrm.UserRepository.findById assigneeId w = (Resolved None, w) ->
  (r = ADMIN \/ r = MANAGER ->
   TypeOrm.TaskService.assignTask taskId assigneeId uid r w
   = (Rejected (userNotFound assigneeId), w))
  /\ (r = USER ->
      TypeOrm.TaskService.assignTask taskId assigneeId uid r w
      = (Rejected (UnauthorizedException
                     "Only ADMIN and MANAGER can assign tasks"), w)).
Proof.
  intros Ht Hu. injection Hu as Hu.
  unfold TypeOrm.TaskService.assignTask, TypeOrm.TaskRepository.findById,
    TypeOrm.UserRepository.findById.
  unfold_async. rewrite Ht.
  split; intros Hr; [destruct Hr|]; subst r; decide_closed;
    rewrite ?Hu; reflexivity.
Qed.

(** C4.  When an ADMIN or a MANAGER assigns an existing task to an id for
    which the user lookup returns null, the drizzle and the typeorm
    service reject with the [NotFoundException] whose message carries that
    id, and the database, hence the task and its [assignedToId], is
    exactly as before.  The lookup comes after the role gate: a USER is
    rejected with [UnauthorizedException] on the same input. *)
Theorem assign_to_missing_user_is_not_found
    (w : World) (taskId : Z) (t : Task) (assigneeId uid : Z) (r : UserRole) :
  tasks w !! taskId = Some t ->
  Drizzle.UserRepository.findById assigneeId w = (Resolved None, w) ->
  TypeOrm.UserRepository.findById assigneeId w = (Resolved None, w) ->
  r = ADMIN \/ r = MANAGER ->
  Drizzle.TaskService.assignTask taskId assigneeId uid r w
  = (Rejected (NotFoundException
                 ("User with id " +:+ render assigneeId +:+ " not found")), w)
  /\ TypeOrm.TaskService.assignTask taskId assigneeId uid r w
     = (Rejected (NotFoundException
                    ("User with id " +:+ render assigneeId +:+ " not found")),
        w)
  /\ Drizzle.TaskService.assignTask taskId assigneeId uid USER w
     = (Rejected (UnauthorizedException
                    "Only ADMIN and MANAGER can assign tasks"), w)
  /\ TypeOrm.TaskService.assignTask taskId assigneeId uid USER w
     = (Rejected (UnauthorizedException
                    "Only ADMIN and MANAGER can assign tasks"), w).
Proof.
  intros Ht Hd Ho Hr.
  destruct (drizzle_assign_missing_user w taskId t assigneeId uid r Ht Hd)
    as [D1 _].
  destruct (typeorm_assign_missing_user w taskId t assigneeId uid r Ht Ho)
    as [T1 _].
  destruct (drizzle_assign_missing_user w taskId t assigneeId uid USER Ht Hd)
    as [_ D2].
  destruct (typeorm_assign_missing_user w taskId t assigneeId uid USER Ht Ho)
    as [_ T2].
  repeat split; auto.
Qed.

(** The scenario of the specification: there is no user 999. *)
Lemma assign_to_missing_user_is_not_found_witness :
  Drizzle.TaskService.assignTask 1 999 2 MANAGER sample_world
  = (Rejected (NotFoundException
                 ("User with id " +:+ render 999 +:+ " not found")),
     sample_world)
  /\ TypeOrm.TaskService.assignTask 1 999 2 MANAGER sample_world
     = (Rejected (NotFoundException
                    ("User with id " +:+ render 999 +:+ " not found")),
        sample_world)
  /\ Drizzle.TaskService.assignTask 1 999 2 USER sample_world
     = (Rejected (UnauthorizedException
                    "Only ADMIN and MANAGER can assign tasks"), sample_world)
  /\ TypeOrm.TaskService.assignTask 1 999 2 USER sample_world
     = (Rejected (UnauthorizedException
                    "Only ADMIN and MANAGER can assign tasks"), sample_world).
Proof.
  apply (assign_to_missing_user_is_not_found
           sample_world 1 sample_task 999 2 MANAGER);
    [reflexivity | reflexivity | reflexivity | right; reflexivity].
Defined.

Example assign_999_message :
  fst (Drizzle.TaskService.assignTask 1 999 1 ADMIN sample_world)
  = Rejected (NotFoundException "User with id 999 not found").
Proof. reflexivity. Qed.

(** ** Tokens: issue, verify, refresh *)

(** The claims a token carries, read without verification. *)
Definition claims_of (token : jwt.Token) : option TokenPayload :=
  match token with
  | jwt.Malformed _ => None
  | jwt.Compact claims _ => Some (jwt.payload claims)
  end.

Definition payload_of (user : User) : TokenPayload :=
  {| userId := user_id user; email := user_email user;
     role := user_role user |}.

Section Tokens.
Variable hmac : string -> jwt.Claims -> string.
Variable secret : string.

Lemma verify_sign p expiresIn issued now :
  now < issued + expiresIn ->
  jwt.verify hmac (jwt.sign hmac p secret expiresIn issued) secret now
  = Some {| jwt.payload := p; jwt.iat := issued;
            jwt.exp := issued + expiresIn |}.
Proof.
  intros Hlt. unfold jwt.verify, jwt.sign. cbn.
  rewrite String.eqb_refl. cbn.
  destruct (Z.ltb_spec now (issued + expiresIn)) as [_|Hge];
    [reflexivity | exfalso; apply (Z.lt_irrefl now);
                   eapply Z.lt_le_trans; eassumption].
Qed.

(** An expired token is refused, as is one signed under another key
    when the keyed hash tells the keys apart. *)
Lemma verify_expired p expiresIn issued now :
  issued + expiresIn <= now ->
  TokenService.verifyToken hmac secret
    (jwt.sign hmac p secret expiresIn issued) now
  = Rejected (UnauthorizedException "Invalid or expired token").
Proof.
  intros Hge. unfold TokenService.verifyToken, jwt.verify, jwt.sign. cbn.
  destruct (Z.ltb_spec now (issued + expiresIn)) as [Hlt|_].
  - exfalso. apply (Z.lt_irrefl now). eapply Z.lt_le_trans; eassumption.
  - rewrite andb_false_r. reflexivity.
Qed.

Lemma verify_malformed raw now :
  TokenService.verifyToken hmac secret (jwt.Malformed raw) now
  = Rejected (UnauthorizedException "Invalid or expired token").
Proof. reflexivity. Qed.

Lemma drizzle_refreshToken_verified w token decoded :
  TokenService.verifyToken hmac secret token (clock w) = Resolved decoded ->
  Drizzle.AuthService.refreshToken hmac secret token w
  = match users w !! userId (jwt.payload decoded) with
    | None =>
        (Rejected (UnauthorizedException "Invalid refresh token"), w)
    | Some user =>
        (Resolved
           {| pair_token :=
                TokenService.generateToken hmac secret user (clock w);
              pair_refreshToken :=
                TokenService.generateRefreshToken hmac secret user (clock w)
           |}, w)
    end.
Proof.
  intros Hv.
  unfold Drizzle.AuthService.refreshToken,
    Drizzle.AuthService.generateToken,
    Drizzle.AuthService.generateRefreshToken,
    Drizzle.UserRepository.findById.
  unfold_async. cbn. rewrite Hv.
  destruct (users w !! userId (jwt.payload decoded)); reflexivity.
Qed.

Lemma typeorm_refreshToken_verified w token decoded :
  TokenService.verifyToken hmac secret token (clock w) = Resolved decoded ->
  TypeOrm.AuthService.refreshToken hmac secret token w
  = match users w !! userId (jwt.payload decoded) with
    | None =>
        (Rejected (UnauthorizedException "Invalid refresh token"), w)
    | Some user =>
        if user_isActive user
        then (Resolved
                {| pair_token :=
                     TokenService.generateToken hmac secret user (clock w);
                   pair_refreshToken :=
                     TokenService.generateRefreshToken hmac secret user
                       (clock w) |}, w)
        else (Rejected (UnauthorizedException "Invalid refresh token"), w)
    end.
Proof.
  intros Hv.
  unfold TypeOrm.AuthService.refreshToken, TypeOrm.AuthService.verifyToken,
    TypeOrm.AuthService.generateToken,
    TypeOrm.AuthService.generateRefreshToken,
    TypeOrm.UserRepository.findById.
  unfold_async. cbn. rewrite Hv.
  destruct (users w !! userId (jwt.payload decoded)) as [user|];
    [destruct (user_isActive user)|]; reflexivity.
Qed.

Lemma drizzle_refreshToken_unverified w token e :
  TokenService.verifyToken hmac secret token (clock w) = Rejected e ->
  Drizzle.AuthService.refreshToken hmac secret token w
  = (Rejected (UnauthorizedException "Invalid refresh token"), w).
Proof.
  intros Hv. unfold Drizzle.AuthService.refreshToken.
  unfold_async. cbn. rewrite Hv. reflexivity.
Qed.
End Tokens.

(** A keyed hash to run the examples with. *)
Definition sample_hmac (secret : string) (claims : jwt.Claims) : string :=
  secret +:+ ":" +:+ render (userId (jwt.payload claims))
         +:+ ":" +:+ render (jwt.exp claims).

(** C7.  Verifying the access token issued for a user, under the same
    secret and before its expiry, returns the claims
    [{userId: u.id, email: u.email, role: u.role}]. *)
Theorem verify_issued_access_token
    (hmac : string -> jwt.Claims -> string) (secret : string)
    (u : User) (issued now : Date) :
  now < issued + 24 * 3600 ->
  exists decoded,
    TokenService.verifyToken hmac secret
      (TokenService.generateToken hmac secret u issued) now
    = Resolved decoded
    /\ jwt.payload decoded
       = {| userId := user_id u; email := user_email u;
            role := user_role u |}.
Proof.
  intros Hlt. unfold TokenService.verifyToken, TokenService.generateToken.
  rewrite verify_sign by assumption.
  eexists. split; reflexivity.
Qed.

Lemma verify_issued_access_token_witness :
  exists decoded,
    TokenService.verifyToken sample_hmac "s3cret"
      (TokenService.generateToken sample_hmac "s3cret"
         (sample_user 2 MANAGER true) 100) 5000
    = Resolved decoded
    /\ jwt.payload decoded
       = {| userId := 2; email := "user@example.com"; role := MANAGER |}.
Proof.
  apply (verify_issued_access_token sample_hmac "s3cret"
           (sample_user 2 MANAGER true) 100 5000).
  reflexivity.
Defined.

(** C6.  After a successful verification of the refresh token, the
    drizzle [refreshToken] looks the subject up by the token's [userId].
    When the lookup returns null it rejects with the
    [UnauthorizedException] "Invalid refresh token"; when it returns a
    user, both the new access token and the new refresh token are issued
    from that record, so they carry its id, email and present role
    whatever the old token claimed.  The database is not written. *)
Theorem refresh_reissues_from_loaded_user
    (hmac : string -> jwt.Claims -> string) (secret : string)
    (w : World) (token : jwt.Token) (decoded : jwt.Claims) :
  TokenService.verifyToken hmac secret token (clock w) = Resolved decoded ->
  match fst (Drizzle.UserRepository.findById
               (userId (jwt.payload decoded)) w) with
  | Resolved None =>
      Drizzle.AuthService.refreshToken hmac secret token w
      = (Rejected (UnauthorizedException "Invalid refresh token"), w)
  | Resolved (Some user) =>
      exists pair,
        Drizzle.AuthService.refreshToken hmac secret token w
        = (Resolved pair, w)
        /\ pair_token pair
           = TokenService.generateToken hmac secret user (clock w)
        /\ pair_refreshToken pair
           = TokenService.generateRefreshToken hmac secret user (clock w)
        /\ claims_of (pair_token pair) = Some (payload_of user)
        /\ claims_of (pair_refreshToken pair) = Some (payload_of user)
  | Rejected _ => False
  end.
Proof.
  intros Hv. rewrite (drizzle_refreshToken_verified hmac secret w token decoded Hv).
  unfold Drizzle.UserRepository.findById. cbn.
  destruct (users w !! userId (jwt.payload decoded)) as [user|].
  - eexists. repeat split; reflexivity.
  - reflexivity.
Qed.

(** User 2 held the USER role when the refresh token was issued at time
    50 and is a MANAGER in the database now. *)
Definition stale_refresh_token : jwt.Token :=
  TokenService.generateRefreshToken sample_hmac "s3cret"
    (sample_user 2 USER true) 50.

Lemma refresh_reissues_from_loaded_user_witness :
  claims_of stale_refresh_token
  = Some {| userId := 2; email := "user@example.com"; role := USER |}
  /\ exists pair,
      Drizzle.AuthService.refreshToken sample_hmac "s3cret"
        stale_refresh_token sample_world
      = (Resolved pair, sample_world)
      /\ pair_token pair
         = TokenService.generateToken sample_hmac "s3cret"
             (sample_user 2 MANAGER true) 100
      /\ pair_refreshToken pair
         = TokenService.generateRefreshToken sample_hmac "s3cret"
             (sample_user 2 MANAGER true) 100
      /\ claims_of (pair_token pair)
         = Some {| userId := 2; email := "user@example.com";
                   role := MANAGER |}
      /\ claims_of (pair_refreshToken pair)
         = Some {| userId := 2; email := "user@example.com";
                   role := MANAGER |}.
Proof.
  split; [reflexivity|].
  apply (refresh_reissues_from_loaded_user sample_hmac "s3cret" sample_world
           stale_refresh_token
           {| jwt.payload := {| userId := 2; email := "user@example.com";
                                role := USER |};
              jwt.iat := 50; jwt.exp := 50 + 7 * 24 * 3600 |}).
  reflexivity.
Defined.

(** The subject of a valid refresh token has been removed from the users
    table. *)
Example refresh_for_removed_user :
  users sample_world !! 42 = None
  /\ Drizzle.AuthService.refreshToken sample_hmac "s3cret"
       (TokenService.generateRefreshToken sample_hmac "s3cret"
          (sample_user 42 USER true) 50) sample_world
     = (Rejected (UnauthorizedException "Invalid refresh token"),
        sample_world).
Proof. split; reflexivity. Qed.

(** User 7 of the fixture, deactivated. *)
Definition inactive_user : User := sample_user 7 USER false.

(** C5.  User 7 is in the users table with [isActive = false] and holds a
    refresh token that verifies.  The drizzle [refreshToken] resolves with
    a fresh pair of tokens for that user, because its repository looks the
    user up by id alone; the typeorm [refreshToken], whose repository
    looks up active users only, rejects the same token with the
    [UnauthorizedException] "Invalid refresh token". *)
Theorem drizzle_refresh_accepts_inactive_user
    (hmac : string -> jwt.Claims -> string) (secret : string) :
  users sample_world !! 7 = Some inactive_user
  /\ user_isActive inactive_user = false
  /\ TokenService.verifyToken hmac secret
       (TokenService.generateRefreshToken hmac secret inactive_user 50)
       (clock sample_world)
     = Resolved {| jwt.payload := payload_of inactive_user; jwt.iat := 50;
                   jwt.exp := 50 + 7 * 24 * 3600 |}
  /\ Drizzle.AuthService.refreshToken hmac secret
       (TokenService.generateRefreshToken hmac secret inactive_user 50)
       sample_world
     = (Resolved
          {| pair_token :=
               TokenService.generateToken hmac secret inactive_user 100;
             pair_refreshToken :=
               TokenService.generateRefreshToken hmac secret inactive_user 100
          |},
        sample_world)
  /\ TypeOrm.AuthService.refreshToken hmac secret
       (TokenService.generateRefreshToken hmac secret inactive_user 50)
       sample_world
     = (Rejected (UnauthorizedException "Invalid refresh token"),
        sample_world).
Proof.
  assert (Hv : TokenService.verifyToken hmac secret
                 (TokenService.generateRefreshToken hmac secret
                    inactive_user 50)
                 (clock sample_world)
               = Resolved {| jwt.payload := payload_of inactive_user;
                             jwt.iat := 50;
                             jwt.exp := 50 + 7 * 24 * 3600 |}).
  { unfold TokenService.verifyToken, TokenService.generateRefreshToken.
    rewrite verify_sign by reflexivity. reflexivity. }
  repeat split; try reflexivity; try exact Hv.
  - rewrite (drizzle_refreshToken_verified hmac secret _ _ _ Hv). reflexivity.
  - rewrite (typeorm_refreshToken_verified hmac secret _ _ _ Hv). reflexivity.
Qed.

(** ** Creating a task *)

Lemma drizzle_createTask_user w taskData uid :
  Drizzle.TaskService.createTask taskData uid USER w
  = (Rejected (UnauthorizedException "Only ADMIN and MANAGER can create tasks"),
     w).
Proof. reflexivity. Qed.

(** The tasks table accepts the row that [createTask] inserts for the
    actor [uid]: the payload has a title of at most 255 characters, the
    creator and the assignee are rows of the users table, and the next
    value of the id sequence is not the id of a task. *)
Definition insert_accepted (w : World) (taskData : PartialTask) (uid : Z)
    : Prop :=
  (exists ttl, p_title taskData = Some ttl
               /\ (String.length ttl <= 255)%nat)
  /\ is_Some (users w !! uid)
  /\ is_Some (users w !! or_number (p_assignedToId taskData) uid)
  /\ tasks w !! tasks_id_seq w = None.

Lemma fits_varchar255_spec s :
  fits_varchar255 s = true <-> (String.length s <= 255)%nat.
Proof. unfold fits_varchar255. rewrite Z.leb_le. lia. Qed.

(** What an ADMIN's or a MANAGER's call writes. *)
Lemma drizzle_createTask_allowed w taskData uid r :
  r = ADMIN \/ r = MANAGER ->
  insert_accepted w taskData uid ->
  exists t w',
    Drizzle.TaskService.createTask taskData uid r w = (Resolved t, w')
    /\ id t = tasks_id_seq w
    /\ p_title taskData = Some (title t)
    /\ createdBy t = uid
    /\ assignedToId t = or_number (p_assignedToId taskData) uid
    /\ tasks w' !! id t = Some t
    /\ users w' = users w.
Proof.
  intros Hr ((ttl & Htitle & Hlen) & Hu & Ha & Hfree).
  apply fits_varchar255_spec in Hlen.
  unfold Drizzle.TaskService.createTask, Drizzle.TaskRepository.create.
  destruct Hr; subst r; decide_closed; rewrite Htitle, Hlen;
    unfold task_id_free, references_user;
    rewrite (bool_decide_eq_true_2 _ Hfree), (bool_decide_eq_true_2 _ Hu),
      (bool_decide_eq_true_2 _ Ha); cbn;
    do 2 eexists; (split; [reflexivity|]); cbn;
    rewrite lookup_insert_eq; repeat split; reflexivity.
Qed.

Lemma drizzle_createTask_resolved w taskData uid r t w' :
  Drizzle.TaskService.createTask taskData uid r w = (Resolved t, w') ->
  (r = ADMIN \/ r = MANAGER)
  /\ insert_accepted w taskData uid
  /\ createdBy t = uid
  /\ assignedToId t = or_number (p_assignedToId taskData) uid
  /\ tasks w' !! id t = Some t.
Proof.
  unfold Drizzle.TaskService.createTask, Drizzle.TaskRepository.create,
    insert_accepted, task_id_free, references_user.
  destruct r; decide_closed; unfold throw; try discriminate;
    (destruct (p_title taskData) as [ttl|]; [|discriminate]);
    (destruct (fits_varchar255 ttl) eqn:Hlen; [|discriminate]);
    apply fits_varchar255_spec in Hlen; cbn;
    (case_bool_decide as Hfree; [|discriminate]); cbn;
    (case_bool_decide as Ha; [|discriminate]);
    (case_bool_decide as Hu; [|discriminate]); cbn;
    intros H; injection H as <- <-; cbn; rewrite lookup_insert_eq;
    repeat split; eauto.
Qed.

(** The write of a call that resolves. *)
Lemma drizzle_createTask_written w taskData uid r t w' :
  Drizzle.TaskService.createTask taskData uid r w = (Resolved t, w') ->
  id t = tasks_id_seq w
  /\ tasks_id_seq w' = tasks_id_seq w + 1
  /\ tasks w' = <[tasks_id_seq w := t]> (tasks w)
  /\ users w' = users w.
Proof.
  unfold Drizzle.TaskService.createTask, Drizzle.TaskRepository.create.
  destruct r; decide_closed; unfold throw; try discriminate;
    (destruct (p_title taskData) as [ttl|]; [|discriminate]);
    repeat (match goal with
            | |- context [if ?b then _ else _] => destruct b
            end; cbn);
    intros H; try discriminate; injection H as <- <-; cbn; auto.
Qed.

(** A refused call leaves both tables as they were. *)
Lemma drizzle_createTask_rejected w taskData uid r e w' :
  Drizzle.TaskService.createTask taskData uid r w = (Rejected e, w') ->
  tasks w' = tasks w /\ users w' = users w.
Proof.
  unfold Drizzle.TaskService.createTask, Drizzle.TaskRepository.create.
  destruct r; decide_closed; unfold throw;
    try (intros H; injection H as <- <-; auto);
    destruct (p_title taskData) as [ttl|];
    repeat (match goal with
            | |- context [if ?b then _ else _] => destruct b
            end; cbn);
    intros H; try discriminate; injection H as <- <-; auto.
Qed.

(** A payload with a title and, possibly, an assignee. *)
Definition titled (ttl : string) (assignee : option Z) : PartialTask :=
  {| p_id := None; p_title := Some ttl; p_description := None;
     p_status := None; p_priority := None;
     p_assignedToId := assignee; p_createdBy := None;
     p_completedAt := None; p_dueDate := None;
     p_createdAt := None; p_updatedAt := None |}.


(** Neither is a task created from a payload that has no title. *)
Example admin_creation_without_title_is_refused :
  exists m w',
    Drizzle.TaskService.createTask empty_partial 1 ADMIN sample_world
    = (Rejected (Error m), w')
    /\ tasks w' = tasks sample_world.
Proof. do 2 eexists. split; reflexivity. Qed.



Example admin_creates_unassigned_task :
  fst (Drizzle.TaskService.createTask (titled "Plan" None) 1 ADMIN
         sample_world)
  = Resolved
      {| id := 2; title := "Plan"; description := Some "";
         status := PENDING; priority := MEDIUM;
         assignedToId := 1; createdBy := 1; completedAt := None;
         createdAt := 100; updatedAt := 100 |}.
Proof. reflexivity. Qed.

(** C10.  [assignedToId] falls back to the creator on a falsy value, not
    only on an absent one: the task that an ADMIN or a MANAGER creates
    with [assignedToId] set to 0 is assigned to themselves. *)
Theorem create_task_zero_assignee_defaults_to_creator
    (w : World) (taskData : PartialTask) (uid : Z) (r : UserRole)
    (t : Task) (w' : World) :
  r = ADMIN \/ r = MANAGER ->
  p_assignedToId taskData = Some 0 ->
  Drizzle.TaskService.createTask taskData uid r w = (Resolved t, w') ->
  assignedToId t = uid
  /\ createdBy t = uid
  /\ tasks w' !! id t = Some t.
Proof.
  intros _ Hzero H.
  destruct (drizzle_createTask_resolved _ _ _ _ _ _ H)
    as (_ & _ & Hc & Ha & Hs).
  rewrite Hzero in Ha. auto.
Qed.

(** Manager 2 creates a task with [assignedToId] 0. *)
Definition zero_assignee_task : Task :=
  {| id := 2; title := "Plan"; description := Some "";
     status := PENDING; priority := MEDIUM;
     assignedToId := 2; createdBy := 2; completedAt := None;
     createdAt := 100; updatedAt := 100 |}.

Definition zero_assignee_world : World :=
  {| tasks := <[2 := zero_assignee_task]> (tasks sample_world);
     users := users sample_world;
     tasks_id_seq := 3;
     clock := 100 |}.

Lemma create_task_zero_assignee_defaults_to_creator_witness :
  Drizzle.TaskService.createTask (titled "Plan" (Some 0)) 2 MANAGER
    sample_world = (Resolved zero_assignee_task, zero_assignee_world)
  /\ assignedToId zero_assignee_task = 2
  /\ createdBy zero_assignee_task = 2
  /\ tasks zero_assignee_world !! id zero_assignee_task
     = Some zero_assignee_task.
Proof.
  split; [reflexivity|].
  apply (create_task_zero_assignee_defaults_to_creator sample_world
           (titled "Plan" (Some 0)) 2 MANAGER);
    [right; reflexivity | reflexivity | reflexivity].
Defined.

(** Such a task is created whenever the table accepts the row. *)
Lemma drizzle_createTask_zero_assignee w taskData uid r :
  r = ADMIN \/ r = MANAGER ->
  p_assignedToId taskData = Some 0 ->
  insert_accepted w taskData uid ->
  exists t w',
    Drizzle.TaskService.createTask taskData uid r w = (Resolved t, w')
    /\ assignedToId t = uid.
Proof.
  intros Hr Hzero Hacc.
  destruct (drizzle_createTask_allowed w taskData uid r Hr Hacc)
    as (t & w' & H & _ & _ & _ & Ha & _).
  exists t, w'. rewrite Hzero in Ha. auto.
Qed.

(** A supplied assignee other than 0 is kept. *)
Lemma drizzle_createTask_keeps_assignee w taskData uid r a :
  r = ADMIN \/ r = MANAGER ->
  p_assignedToId taskData = Some a ->
  a <> 0 ->
  insert_accepted w taskData uid ->
  exists t w',
    Drizzle.TaskService.createTask taskData uid r w = (Resolved t, w')
    /\ assignedToId t = a.
Proof.
  intros Hr Ha Hnz Hacc.
  destruct (drizzle_createTask_allowed w taskData uid r Hr Hacc)
    as (t & w' & H & _ & _ & _ & Hassign & _).
  exists t, w'. split; [exact H|].
  rewrite Hassign, Ha. cbn. destruct (Z.eqb_spec a 0); congruence.
Qed.

(** ** Deleting a task *)

Lemma drizzle_deleteTask_existing w taskId t uid r :
  tasks w !! taskId = Some t ->
  Drizzle.TaskService.deleteTask taskId uid r w
  = match r with
    | ADMIN => (Resolved true, set_tasks (delete taskId) w)
    | _ => (Rejected (UnauthorizedException "Only ADMIN can delete tasks"), w)
    end.
Proof.
  intros Ht.
  unfold Drizzle.TaskService.deleteTask, Drizzle.TaskRepository.findById.
  unfold_async. rewrite Ht. destruct r; reflexivity.
Qed.

Lemma objection_deleteTask_existing w taskId t uid r :
  tasks w !! taskId = Some t ->
  Objection.TaskService.deleteTask taskId uid r w
  = match r with
    | ADMIN => (Resolved true, set_tasks (delete taskId) w)
    | _ => (Rejected (UnauthorizedException "Only ADMIN can delete tasks"), w)
    end.
Proof.
  intros Ht.
  unfold Objection.TaskService.deleteTask, Objection.TaskRepository.findById.
  unfold_async. rewrite Ht. destruct r; reflexivity.
Qed.

(** C9.  Deleting an existing task succeeds only for an ADMIN, and then
    the row is gone.  A MANAGER or a USER is rejected with
    [UnauthorizedException] by the drizzle and by the objection service,
    whoever created the task and whoever it is assigned to, and the
    database still holds the task. *)
Theorem delete_task_admin_only
    (w : World) (taskId : Z) (t : Task) (uid : Z) (r : UserRole) :
  tasks w !! taskId = Some t ->
  match r with
  | ADMIN =>
      exists w',
        Drizzle.TaskService.deleteTask taskId uid r w = (Resolved true, w')
        /\ Objection.TaskService.deleteTask taskId uid r w
           = (Resolved true, w')
        /\ tasks w' !! taskId = None
  | MANAGER | USER =>
      Drizzle.TaskService.deleteTask taskId uid r w
      = (Rejected (UnauthorizedException "Only ADMIN can delete tasks"), w)
      /\ Objection.TaskService.deleteTask taskId uid r w
         = (Rejected (UnauthorizedException "Only ADMIN can delete tasks"), w)
      /\ tasks w !! taskId = Some t
  end.
Proof.
  intros Ht.
  rewrite (drizzle_deleteTask_existing w taskId t uid r Ht).
  rewrite (objection_deleteTask_existing w taskId t uid r Ht).
  destruct r; auto.
  eexists. repeat split. cbn. apply lookup_delete_eq.
Qed.

(** The MANAGER deleting is the creator of the task. *)
Lemma delete_task_admin_only_witness :
  createdBy sample_task = 1
  /\ Drizzle.TaskService.deleteTask 1 1 MANAGER sample_world
     = (Rejected (UnauthorizedException "Only ADMIN can delete tasks"),
        sample_world)
  /\ Objection.TaskService.deleteTask 1 1 MANAGER sample_world
     = (Rejected (UnauthorizedException "Only ADMIN can delete tasks"),
        sample_world)
  /\ tasks sample_world !! 1 = Some sample_task.
Proof.
  split; [reflexivity|].
  apply (delete_task_admin_only sample_world 1 sample_task 1 MANAGER).
  reflexivity.
Defined.

(** * Further properties of the task services *)

(** Every row of the tasks table sits under its own primary key. *)
Definition keyed_by_id (w : World) : Prop :=
  forall k row, tasks w !! k = Some row -> id row = k.

(** ** Reading *)

(** The read policy of [getTaskById] as a predicate on the actor and the
    task's ownership columns. *)
Definition may_read (uid : Z) (r : UserRole) (t : Task) : Prop :=
  match r with
  | ADMIN => True
  | MANAGER => createdBy t = uid \/ assignedToId t = uid
  | USER => assignedToId t = uid
  end.

#[global] Instance may_read_dec uid r t : Decision (may_read uid r t).
Proof. destruct r; cbn; apply _. Defined.

Lemma drizzle_getTaskById_existing w taskId t uid r :
  tasks w !! taskId = Some t ->
  Drizzle.TaskService.getTaskById taskId uid r w
  = if decide (may_read uid r t)
    then (Resolved t, w)
    else (Rejected (UnauthorizedException
                      "You do not have permission to access this task"), w).
Proof.
  intros Ht.
  unfold Drizzle.TaskService.getTaskById, Drizzle.TaskRepository.findById.
  unfold_async. rewrite Ht.
  destruct r; decide_closed; case_decide as Hd; cbn in Hd; policy.
Qed.

Lemma typeorm_getTaskById_existing w taskId t uid r :
  tasks w !! taskId = Some t ->
  TypeOrm.TaskService.getTaskById taskId uid r w
  = if decide (may_read uid r t)
    then (Resolved t, w)
    else (Rejected (UnauthorizedException
                      "You do not have permission to access this task"), w).
Proof.
  intros Ht.
  unfold TypeOrm.TaskService.getTaskById, TypeOrm.TaskRepository.findById.
  unfold_async. rewrite Ht.
  destruct r; decide_closed; case_decide as Hd; cbn in Hd; policy.
Qed.

(** X1.  Reading an existing task through [getTaskById] (drizzle and
    typeorm) resolves with the task for an ADMIN, for a MANAGER who
    created it or is assigned to it, and for a USER who is assigned to it;
    anyone else is rejected with [UnauthorizedException].  The database is
    never written. *)
Theorem getTaskById_read_policy
    (w : World) (taskId : Z) (t : Task) (uid : Z) (r : UserRole) :
  tasks w !! taskId = Some t ->
  (may_read uid r t ->
   Drizzle.TaskService.getTaskById taskId uid r w = (Resolved t, w)
   /\ TypeOrm.TaskService.getTaskById taskId uid r w = (Resolved t, w))
  /\ (~ may_read uid r t ->
      Drizzle.TaskService.getTaskById taskId uid r w
      = (Rejected (UnauthorizedException
                     "You do not have permission to access this task"), w)
      /\ TypeOrm.TaskService.getTaskById taskId uid r w
         = (Rejected (UnauthorizedException
                        "You do not have permission to access this task"), w)).
Proof.
  intros Ht.
  rewrite (drizzle_getTaskById_existing w taskId t uid r Ht).
  rewrite (typeorm_getTaskById_existing w taskId t uid r Ht).
  split; intros H; case_decide; tauto.
Qed.

Lemma getTaskById_read_policy_witness :
  (may_read 3 USER sample_task ->
   Drizzle.TaskService.getTaskById 1 3 USER sample_world
   = (Resolved sample_task, sample_world)
   /\ TypeOrm.TaskService.getTaskById 1 3 USER sample_world
      = (Resolved sample_task, sample_world))
  /\ (~ may_read 3 USER sample_task ->
      Drizzle.TaskService.getTaskById 1 3 USER sample_world
      = (Rejected (UnauthorizedException
                     "You do not have permission to access this task"),
         sample_world)
      /\ TypeOrm.TaskService.getTaskById 1 3 USER sample_world
         = (Rejected (UnauthorizedException
                        "You do not have permission to access this task"),
            sample_world)).
Proof.
  apply (getTaskById_read_policy sample_world 1 sample_task 3 USER).
  reflexivity.
Defined.

(** ** Listing *)

Lemma elem_of_rows (m : gmap Z Task) (t : Task) :
  t ∈ map snd (map_to_list m) <-> exists k, m !! k = Some t.
Proof.
  rewrite list_elem_of_In, in_map_iff. split.
  - intros ([k t'] & <- & Hin). exists k.
    apply elem_of_map_to_list, list_elem_of_In, Hin.
  - intros (k & Hk). exists (k, t). split; [reflexivity|].
    apply list_elem_of_In, elem_of_map_to_list, Hk.
Qed.

Lemma elem_of_rows_keyed w (t : Task) :
  keyed_by_id w ->
  t ∈ map snd (map_to_list (tasks w)) <-> tasks w !! id t = Some t.
Proof.
  intros Hk. rewrite elem_of_rows. split.
  - intros (k & Hkt). rewrite (Hk _ _ Hkt). exact Hkt.
  - eauto.
Qed.

(** X2.  [getTasksByUser] lists exactly the tasks that [getTaskById]
    would let the same actor read, in a table whose rows sit under their
    own ids: all of them for an ADMIN, those created by or assigned to a
    MANAGER, those assigned to a USER. *)
Theorem listed_tasks_are_the_readable_ones
    (w : World) (uid : Z) (r : UserRole) :
  keyed_by_id w ->
  exists l,
    Drizzle.TaskService.getTasksByUser uid r w = (Resolved l, w)
    /\ forall t,
         t ∈ l
         <-> tasks w !! id t = Some t
             /\ Drizzle.TaskService.getTaskById (id t) uid r w
                = (Resolved t, w).
Proof.
  intros Hk.
  assert (Hread : forall t, tasks w !! id t = Some t ->
            (Drizzle.TaskService.getTaskById (id t) uid r w = (Resolved t, w)
             <-> may_read uid r t)).
  { intros t Ht. rewrite (drizzle_getTaskById_existing w (id t) t uid r Ht).
    case_decide; split; intros; try tauto; discriminate. }
  destruct r; cbn; eexists; (split; [reflexivity|]); intros t.
  - rewrite (elem_of_rows_keyed w t Hk). split; [|tauto].
    intros Ht. split; [exact Ht|]. apply Hread; cbn; auto.
  - rewrite list_elem_of_filter, (elem_of_rows_keyed w t Hk). split.
    + intros [Hown Ht]. split; [exact Ht|]. apply Hread; cbn; tauto.
    + intros [Ht Hget]. apply Hread in Hget; cbn in Hget; tauto.
  - rewrite list_elem_of_filter, (elem_of_rows_keyed w t Hk). split.
    + intros [Hown Ht]. split; [exact Ht|]. apply Hread; cbn; tauto.
    + intros [Ht Hget]. apply Hread in Hget; cbn in Hget; tauto.
Qed.

Lemma listed_tasks_are_the_readable_ones_witness :
  exists l,
    Drizzle.TaskService.getTasksByUser 3 USER sample_world
    = (Resolved l, sample_world)
    /\ forall t,
         t ∈ l
         <-> tasks sample_world !! id t = Some t
             /\ Drizzle.TaskService.getTaskById (id t) 3 USER sample_world
                = (Resolved t, sample_world).
Proof.
  apply (listed_tasks_are_the_readable_ones sample_world 3 USER).
  intros k row H. cbn in H.
  apply lookup_singleton_Some in H as [<- <-]. reflexivity.
Defined.

(** ** Changing the status *)

Definition with_status (st : TaskStatus) (t : Task) : Task :=
  {| id := id t; title := title t; description := description t;
     status := st; priority := priority t;
     assignedToId := assignedToId t; createdBy := createdBy t;
     completedAt := completedAt t; createdAt := createdAt t;
     updatedAt := updatedAt t |}.

Lemma drizzle_updateTaskStatus_existing w taskId t st uid r :
  tasks w !! taskId = Some t ->
  id t = taskId ->
  Drizzle.TaskService.updateTaskStatus taskId st uid r w
  = if decide (may_read uid r t)
    then (Resolved (with_status st t),
          set_tasks (fun m => <[taskId := with_status st t]> m) w)
    else (Rejected (UnauthorizedException
                      (match r with
                       | USER => "You can only update status of your own tasks"
                       | _ => "You do not have permission to update this task"
                       end)), w).
Proof.
  intros Ht Hid.
  unfold Drizzle.TaskService.updateTaskStatus,
    Drizzle.TaskRepository.findById, Drizzle.TaskRepository.update.
  unfold_async. rewrite Ht.
  destruct r; decide_closed; case_decide as Hd; cbn in Hd;
    try (exfalso; tauto);
    repeat (case_bool_decide; try tauto; try congruence); cbn;
    rewrite ?Ht; cbn; unfold set_tasks; cbn;
    rewrite ?Hid, ?insert_delete_eq; reflexivity.
Qed.

(** X3.  In the drizzle service an actor may change the status of an
    existing task exactly when they may read it. *)
Theorem status_change_allowed_iff_readable
    (w : World) (taskId : Z) (t : Task) (st : TaskStatus) (uid : Z)
    (r : UserRole) :
  tasks w !! taskId = Some t ->
  id t = taskId ->
  (exists t' w',
     Drizzle.TaskService.updateTaskStatus taskId st uid r w
     = (Resolved t', w'))
  <-> Drizzle.TaskService.getTaskById taskId uid r w = (Resolved t, w).
Proof.
  intros Ht Hid.
  rewrite (drizzle_updateTaskStatus_existing w taskId t st uid r Ht Hid).
  rewrite (drizzle_getTaskById_existing w taskId t uid r Ht).
  case_decide; split; eauto; try discriminate.
  intros (t' & w' & H'). discriminate.
Qed.

Lemma status_change_allowed_iff_readable_witness :
  (exists t' w',
     Drizzle.TaskService.updateTaskStatus 1 IN_PROGRESS 3 USER sample_world
     = (Resolved t', w'))
  <-> Drizzle.TaskService.getTaskById 1 3 USER sample_world
      = (Resolved sample_task, sample_world).
Proof.
  apply (status_change_allowed_iff_readable sample_world 1 sample_task
           IN_PROGRESS 3 USER); reflexivity.
Defined.

(** X4.  A status change that is allowed writes the [status] column and
    nothing else: [completedAt] keeps its value even when the new status
    is COMPLETED, and no other row is touched. *)
Theorem status_change_writes_status_only
    (w : World) (taskId : Z) (t : Task) (st : TaskStatus) (uid : Z)
    (r : UserRole) :
  tasks w !! taskId = Some t ->
  id t = taskId ->
  may_read uid r t ->
  exists w',
    Drizzle.TaskService.updateTaskStatus taskId st uid r w
    = (Resolved (with_status st t), w')
    /\ tasks w' !! taskId = Some (with_status st t)
    /\ completedAt (with_status st t) = completedAt t
    /\ only_row_changed taskId w w'.
Proof.
  intros Ht Hid Hread.
  rewrite (drizzle_updateTaskStatus_existing w taskId t st uid r Ht Hid).
  rewrite decide_True by assumption.
  eexists. split; [reflexivity|]. cbn.
  rewrite lookup_insert_eq. repeat split.
  intros k Hk. apply lookup_insert_ne. congruence.
Qed.

Lemma status_change_writes_status_only_witness :
  exists w',
    Drizzle.TaskService.updateTaskStatus 1 COMPLETED 3 USER sample_world
    = (Resolved (with_status COMPLETED sample_task), w')
    /\ tasks w' !! 1 = Some (with_status COMPLETED sample_task)
    /\ completedAt (with_status COMPLETED sample_task)
       = completedAt sample_task
    /\ only_row_changed 1 sample_world w'.
Proof.
  apply (status_change_writes_status_only sample_world 1 sample_task
           COMPLETED 3 USER); reflexivity.
Defined.

(** ** Priority and assignment *)

Definition with_priority (p : TaskPriority) (t : Task) : Task :=
  {| id := id t; title := title t; description := description t;
     status := status t; priority := p;
     assignedToId := assignedToId t; createdBy := createdBy t;
     completedAt := completedAt t; createdAt := createdAt t;
     updatedAt := updatedAt t |}.

Definition with_assignee (a : Z) (t : Task) : Task :=
  {| id := id t; title := title t; description := description t;
     status := status t; priority := priority t;
     assignedToId := a; createdBy := createdBy t;
     completedAt := completedAt t; createdAt := createdAt t;
     updatedAt := updatedAt t |}.

Lemma drizzle_updateTaskPriority_existing w taskId t p uid r :
  tasks w !! taskId = Some t ->
  id t = taskId ->
  r = ADMIN \/ r = MANAGER ->
  Drizzle.TaskService.updateTaskPriority taskId p uid r w
  = (Resolved (with_priority p t),
     set_tasks (fun m => <[taskId := with_priority p t]> m) w).
Proof.
  intros Ht Hid Hr.
  unfold Drizzle.TaskService.updateTaskPriority,
    Drizzle.TaskRepository.findById, Drizzle.TaskRepository.update.
  unfold_async.
  destruct Hr; subst r; decide_closed; rewrite Ht; cbn; rewrite Ht;
    decide_closed; reflexivity.
Qed.

Lemma drizzle_assignTask_existing w taskId t a u uid r :
  tasks w !! taskId = Some t ->
  id t = taskId ->
  users w !! a = Some u ->
  r = ADMIN \/ r = MANAGER ->
  Drizzle.TaskService.assignTask taskId a uid r w
  = (Resolved (with_assignee a t),
     set_tasks (fun m => <[taskId := with_assignee a t]> m) w).
Proof.
  intros Ht Hid Hu Hr.
  unfold Drizzle.TaskService.assignTask, Drizzle.TaskRepository.findById,
    Drizzle.UserRepository.findById, Drizzle.TaskRepository.update.
  unfold_async. rewrite Ht.
  destruct Hr; subst r; decide_closed; rewrite Hu; cbn; rewrite Ht;
    unfold references_user; rewrite Hu; decide_closed; reflexivity.
Qed.

(** X5.  [updateTaskPriority] looks at the role only.  A MANAGER who
    neither created a task nor is assigned to it cannot read it, yet
    changes its priority and is handed the updated task. *)
Theorem manager_changes_priority_of_unreadable_task
    (w : World) (taskId : Z) (t : Task) (p : TaskPriority) (uid : Z) :
  tasks w !! taskId = Some t ->
  id t = taskId ->
  createdBy t <> uid ->
  assignedToId t <> uid ->
  Drizzle.TaskService.getTaskById taskId uid MANAGER w
  = (Rejected (UnauthorizedException
                 "You do not have permission to access this task"), w)
  /\ exists w',
       Drizzle.TaskService.updateTaskPriority taskId p uid MANAGER w
       = (Resolved (with_priority p t), w')
       /\ tasks w' !! taskId = Some (with_priority p t)
       /\ only_row_changed taskId w w'.
Proof.
  intros Ht Hid Hc Ha. split.
  - rewrite (drizzle_getTaskById_existing w taskId t uid MANAGER Ht).
    rewrite decide_False by (cbn; tauto). reflexivity.
  - rewrite (drizzle_updateTaskPriority_existing w taskId t p uid MANAGER Ht Hid)
      by auto.
    eexists. split; [reflexivity|]. cbn. rewrite lookup_insert_eq.
    repeat split. intros k Hk. apply lookup_insert_ne. congruence.
Qed.

Lemma manager_changes_priority_of_unreadable_task_witness :
  Drizzle.TaskService.getTaskById 1 2 MANAGER sample_world
  = (Rejected (UnauthorizedException
                 "You do not have permission to access this task"),
     sample_world)
  /\ exists w',
       Drizzle.TaskService.updateTaskPriority 1 URGENT 2 MANAGER sample_world
       = (Resolved (with_priority URGENT sample_task), w')
       /\ tasks w' !! 1 = Some (with_priority URGENT sample_task)
       /\ only_row_changed 1 sample_world w'.
Proof.
  apply (manager_changes_priority_of_unreadable_task sample_world 1
           sample_task URGENT 2); [reflexivity | reflexivity | | ];
    cbn; discriminate.
Defined.

(** X6.  [assignTask] looks at the role only.  A MANAGER with no tie to
    a task cannot read it, assigns it to themselves, and can read it
    afterwards. *)
Theorem manager_gains_access_by_self_assignment
    (w : World) (taskId : Z) (t : Task) (uid : Z) (u : User) :
  tasks w !! taskId = Some t ->
  id t = taskId ->
  createdBy t <> uid ->
  assignedToId t <> uid ->
  users w !! uid = Some u ->
  Drizzle.TaskService.getTaskById taskId uid MANAGER w
  = (Rejected (UnauthorizedException
                 "You do not have permission to access this task"), w)
  /\ exists w',
       Drizzle.TaskService.assignTask taskId uid uid MANAGER w
       = (Resolved (with_assignee uid t), w')
       /\ Drizzle.TaskService.getTaskById taskId uid MANAGER w'
          = (Resolved (with_assignee uid t), w').
Proof.
  intros Ht Hid Hc Ha Hu. split.
  - rewrite (drizzle_getTaskById_existing w taskId t uid MANAGER Ht).
    rewrite decide_False by (cbn; tauto). reflexivity.
  - rewrite (drizzle_assignTask_existing w taskId t uid u uid MANAGER Ht Hid Hu)
      by auto.
    eexists. split; [reflexivity|].
    erewrite drizzle_getTaskById_existing
      by (cbn; apply lookup_insert_eq).
    rewrite decide_True by (cbn; auto). reflexivity.
Qed.

Lemma manager_gains_access_by_self_assignment_witness :
  Drizzle.TaskService.getTaskById 1 2 MANAGER sample_world
  = (Rejected (UnauthorizedException
                 "You do not have permission to access this task"),
     sample_world)
  /\ exists w',
       Drizzle.TaskService.assignTask 1 2 2 MANAGER sample_world
       = (Resolved (with_assignee 2 sample_task), w')
       /\ Drizzle.TaskService.getTaskById 1 2 MANAGER w'
          = (Resolved (with_assignee 2 sample_task), w').
Proof.
  apply (manager_gains_access_by_self_assignment sample_world 1 sample_task 2
           (sample_user 2 MANAGER true));
    [reflexivity | reflexivity | cbn; discriminate | cbn; discriminate
    | reflexivity].
Defined.

(** X7.  After a successful [assignTask] to another user, that user can
    read the task as a USER and the previous assignee no longer can; no
    other row changes. *)
Theorem assignment_hands_over_user_access
    (w : World) (taskId : Z) (t : Task) (a : Z) (u : User) (uid : Z)
    (r : UserRole) :
  tasks w !! taskId = Some t ->
  id t = taskId ->
  users w !! a = Some u ->
  r = ADMIN \/ r = MANAGER ->
  assignedToId t <> a ->
  exists w',
    Drizzle.TaskService.assignTask taskId a uid r w
    = (Resolved (with_assignee a t), w')
    /\ Drizzle.TaskService.getTaskById taskId a USER w'
       = (Resolved (with_assignee a t), w')
    /\ Drizzle.TaskService.getTaskById taskId (assignedToId t) USER w'
       = (Rejected (UnauthorizedException
                      "You do not have permission to access this task"), w')
    /\ only_row_changed taskId w w'.
Proof.
  intros Ht Hid Hu Hr Hne.
  rewrite (drizzle_assignTask_existing w taskId t a u uid r Ht Hid Hu Hr).
  eexists. split; [reflexivity|]. split; [|split].
  - erewrite drizzle_getTaskById_existing by (cbn; apply lookup_insert_eq).
    rewrite decide_True by reflexivity. reflexivity.
  - erewrite drizzle_getTaskById_existing by (cbn; apply lookup_insert_eq).
    rewrite decide_False by (cbn; congruence). reflexivity.
  - split; [|reflexivity]. intros k Hk. cbn. apply lookup_insert_ne. congruence.
Qed.

Lemma assignment_hands_over_user_access_witness :
  exists w',
    Drizzle.TaskService.assignTask 1 2 1 ADMIN sample_world
    = (Resolved (with_assignee 2 sample_task), w')
    /\ Drizzle.TaskService.getTaskById 1 2 USER w'
       = (Resolved (with_assignee 2 sample_task), w')
    /\ Drizzle.TaskService.getTaskById 1 (assignedToId sample_task) USER w'
       = (Rejected (UnauthorizedException
                      "You do not have permission to access this task"), w')
    /\ only_row_changed 1 sample_world w'.
Proof.
  apply (assignment_hands_over_user_access sample_world 1 sample_task 2
           (sample_user 2 MANAGER true) 1 ADMIN);
    [reflexivity | reflexivity | reflexivity | left; reflexivity
    | cbn; discriminate].
Defined.

(** ** Deleting and creating *)

(** X8.  After an ADMIN's [deleteTask], reading, updating, deleting,
    assigning and changing the status of that id are all rejected with
    [NotFoundException], whatever the role; the other rows and the users
    are untouched. *)
Theorem deleted_task_is_gone_for_every_operation
    (w : World) (taskId : Z) (t : Task) (admin uid : Z) (r : UserRole) :
  tasks w !! taskId = Some t ->
  exists w',
    Drizzle.TaskService.deleteTask taskId admin ADMIN w = (Resolved true, w')
    /\ only_row_changed taskId w w'
    /\ Drizzle.TaskService.getTaskById taskId uid r w'
       = (Rejected (taskNotFound taskId), w')
    /\ (forall d, Drizzle.TaskService.updateTask taskId d uid r w'
                  = (Rejected (taskNotFound taskId), w'))
    /\ Drizzle.TaskService.deleteTask taskId uid r w'
       = (Rejected (taskNotFound taskId), w')
    /\ (forall a, Drizzle.TaskService.assignTask taskId a uid r w'
                  = (Rejected (taskNotFound taskId), w'))
    /\ (forall s, Drizzle.TaskService.updateTaskStatus taskId s uid r w'
                  = (Rejected (taskNotFound taskId), w')).
Proof.
  intros Ht.
  rewrite (drizzle_deleteTask_existing w taskId t admin ADMIN Ht).
  eexists. split; [reflexivity|]. split.
  - split; [|reflexivity]. intros k Hk. cbn. apply lookup_delete_ne. congruence.
  - apply drizzle_missing_task_lookup_first. cbn. apply lookup_delete_eq.
Qed.

Lemma deleted_task_is_gone_for_every_operation_witness :
  exists w',
    Drizzle.TaskService.deleteTask 1 1 ADMIN sample_world = (Resolved true, w')
    /\ only_row_changed 1 sample_world w'
    /\ Drizzle.TaskService.getTaskById 1 3 USER w'
       = (Rejected (taskNotFound 1), w')
    /\ (forall d, Drizzle.TaskService.updateTask 1 d 3 USER w'
                  = (Rejected (taskNotFound 1), w'))
    /\ Drizzle.TaskService.deleteTask 1 3 USER w'
       = (Rejected (taskNotFound 1), w')
    /\ (forall a, Drizzle.TaskService.assignTask 1 a 3 USER w'
                  = (Rejected (taskNotFound 1), w'))
    /\ (forall s, Drizzle.TaskService.updateTaskStatus 1 s 3 USER w'
                  = (Rejected (taskNotFound 1), w')).
Proof.
  apply (deleted_task_is_gone_for_every_operation sample_world 1 sample_task
           1 3 USER).
  reflexivity.
Defined.

(** X9.  A created task gets the serial's current value as its id, the
    serial advances by one, the creator can read the task back with the
    role that created it, and no row under another id changes. *)
Theorem created_task_is_readable_by_its_creator
    (w : World) (taskData : PartialTask) (uid : Z) (r : UserRole)
    (t : Task) (w' : World) :
  Drizzle.TaskService.createTask taskData uid r w = (Resolved t, w') ->
  id t = tasks_id_seq w
  /\ tasks_id_seq w' = tasks_id_seq w + 1
  /\ Drizzle.TaskService.getTaskById (id t) uid r w' = (Resolved t, w')
  /\ (forall k, k <> tasks_id_seq w -> tasks w' !! k = tasks w !! k)
  /\ users w' = users w.
Proof.
  intros H.
  destruct (drizzle_createTask_resolved _ _ _ _ _ _ H)
    as (Hr & _ & Hc & _ & Hs).
  destruct (drizzle_createTask_written _ _ _ _ _ _ H)
    as (Hid & Hseq & Htasks & Husers).
  repeat split; auto.
  - rewrite (drizzle_getTaskById_existing w' (id t) t uid r Hs).
    rewrite decide_True; [reflexivity|].
    destruct Hr; subst r; cbn; auto.
  - intros k Hk. rewrite Htasks. apply lookup_insert_ne. congruence.
Qed.

Definition planned_task : Task :=
  {| id := 2; title := "Plan"; description := Some "";
     status := PENDING; priority := MEDIUM;
     assignedToId := 3; createdBy := 2; completedAt := None;
     createdAt := 100; updatedAt := 100 |}.

Definition sample_world_planned : World :=
  {| tasks := <[2 := planned_task]> (tasks sample_world);
     users := users sample_world;
     tasks_id_seq := 3; clock := 100 |}.

Lemma created_task_is_readable_by_its_creator_witness :
  id planned_task = tasks_id_seq sample_world
  /\ tasks_id_seq sample_world_planned = tasks_id_seq sample_world + 1
  /\ Drizzle.TaskService.getTaskById (id planned_task) 2 MANAGER
       sample_world_planned
     = (Resolved planned_task, sample_world_planned)
  /\ (forall k, k <> tasks_id_seq sample_world ->
                tasks sample_world_planned !! k = tasks sample_world !! k)
  /\ users sample_world_planned = users sample_world.
Proof.
  apply (created_task_is_readable_by_its_creator sample_world
           (titled "Plan" (Some 3)) 2 MANAGER planned_task
           sample_world_planned).
  reflexivity.
Defined.

(** ** The typeorm and objection variants *)

(** X10.  The typeorm [updateTaskDueDate] resolves for an ADMIN or a
    MANAGER on an existing task and leaves the database exactly as it
    was: the repository's [update] copies six keys and [dueDate] is not
    one of them. *)
Theorem typeorm_due_date_is_not_stored
    (w : World) (taskId : Z) (t : Task) (dueDate : Date) (uid : Z)
    (r : UserRole) :
  tasks w !! taskId = Some t ->
  r = ADMIN \/ r = MANAGER ->
  exists t',
    TypeOrm.TaskService.updateTaskDueDate taskId dueDate uid r w
    = (Resolved t', w).
Proof.
  intros Ht Hr.
  unfold TypeOrm.TaskService.updateTaskDueDate,
    TypeOrm.TaskRepository.findById, TypeOrm.TaskRepository.update.
  unfold_async. rewrite Ht.
  assert (Hp : patch t (TypeOrm.TaskRepository.assigned
                          {| p_id := None; p_title := None;
                             p_description := None; p_status := None;
                             p_priority := None; p_assignedToId := None;
                             p_createdBy := None; p_completedAt := None;
                             p_dueDate := Some dueDate; p_createdAt := None;
                             p_updatedAt := None |}) = t)
    by (destruct t; reflexivity).
  destruct Hr; subst r; decide_closed; rewrite Ht; cbn;
    rewrite Hp, bool_decide_eq_true_2 by reflexivity;
    eexists; reflexivity.
Qed.

Lemma typeorm_due_date_is_not_stored_witness :
  exists t',
    TypeOrm.TaskService.updateTaskDueDate 1 5000 1 ADMIN sample_world
    = (Resolved t', sample_world).
Proof.
  apply (typeorm_due_date_is_not_stored sample_world 1 sample_task 5000 1
           ADMIN); [reflexivity | left; reflexivity].
Defined.

(** X11.  The objection service reads [createdBy] and [assignedToId] of
    rows whose keys are [created_by] and [assigned_to_id], so none of its
    ownership tests passes: reading, updating and changing the status of
    an existing task are refused to every MANAGER and every USER, the
    creator and the assignee included, and nothing is written. *)
Theorem objection_refuses_every_manager_and_user
    (w : World) (taskId : Z) (t : Task) (taskData : PartialTask)
    (st : TaskStatus) (uid : Z) (r : UserRole) :
  tasks w !! taskId = Some t ->
  r = MANAGER \/ r = USER ->
  Objection.TaskService.getTaskById taskId uid r w
  = (Rejected (UnauthorizedException
                 "You do not have permission to access this task"), w)
  /\ Objection.TaskService.updateTask taskId taskData uid r w
     = (Rejected (UnauthorizedException
                    "You do not have permission to update this task"), w)
  /\ exists m,
       Objection.TaskService.updateTaskStatus taskId st uid r w
       = (Rejected (UnauthorizedException m), w).
Proof.
  intros Ht Hr.
  unfold Objection.TaskService.getTaskById, Objection.TaskService.updateTask,
    Objection.TaskService.updateTaskStatus, Objection.TaskRepository.findById.
  unfold_async. rewrite Ht.
  destruct Hr; subst r; repeat split; try reflexivity;
    eexists; reflexivity.
Qed.

(** User 3 is the assignee of task 1. *)
Lemma objection_refuses_every_manager_and_user_witness :
  Objection.TaskService.getTaskById 1 3 USER sample_world
  = (Rejected (UnauthorizedException
                 "You do not have permission to access this task"),
     sample_world)
  /\ Objection.TaskService.updateTask 1 sample_payload 3 USER sample_world
     = (Rejected (UnauthorizedException
                    "You do not have permission to update this task"),
        sample_world)
  /\ exists m,
       Objection.TaskService.updateTaskStatus 1 COMPLETED 3 USER sample_world
       = (Rejected (UnauthorizedException m), sample_world).
Proof.
  apply (objection_refuses_every_manager_and_user sample_world 1 sample_task
           sample_payload COMPLETED 3 USER);
    [reflexivity | right; reflexivity].
Defined.

(** X29.  The objection [createTask] stores no task.  A USER is rejected
    with [UnauthorizedException]; the row that the repository inserts for
    an ADMIN or a MANAGER names the columns [assignedToId] and
    [createdBy], which the tasks table does not have, so the call rejects
    with an error whatever the payload.  The database is as before. *)
Theorem objection_createTask_stores_nothing
    (w : World) (taskData : PartialTask) (uid : Z) (r : UserRole) :
  match r with
  | USER =>
      Objection.TaskService.createTask taskData uid r w
      = (Rejected (UnauthorizedException
                     "Only ADMIN and MANAGER can create tasks"), w)
  | ADMIN | MANAGER =>
      exists m,
        Objection.TaskService.createTask taskData uid r w
        = (Rejected (Error m), w)
  end.
Proof.
  unfold Objection.TaskService.createTask, Objection.TaskRepository.create.
  destruct r; decide_closed; try reflexivity;
    destruct (p_title taskData) as [ttl|]; try (eexists; reflexivity);
    destruct (Objection.TaskRepository.valid_title ttl);
    eexists; reflexivity.
Qed.

(** An ADMIN passes, and the status is the one column that changes. *)
Example objection_admin_changes_status :
  fst (Objection.TaskService.updateTaskStatus 1 COMPLETED 1 ADMIN
         sample_world)
  = Resolved
      {| Objection.row_id := 1; Objection.row_title := "Write report";
         Objection.row_description := None;
         Objection.row_status := COMPLETED; Objection.row_priority := LOW;
         Objection.assigned_to_id := 3; Objection.created_by := 1;
         Objection.completed_at := None; Objection.created_at := 0;
         Objection.updated_at := 0 |}.
Proof. reflexivity. Qed.

(** * Further properties of the tokens *)

(** X12.  From 24 hours after issue until 7 days after issue, the access
    token of a user is refused while the refresh token issued at the same
    time still verifies. *)
Theorem refresh_token_outlives_access_token
    (hmac : string -> jwt.Claims -> string) (secret : string)
    (u : User) (issued now : Date) :
  issued + 24 * 3600 <= now ->
  now < issued + 7 * 24 * 3600 ->
  TokenService.verifyToken hmac secret
    (TokenService.generateToken hmac secret u issued) now
  = Rejected (UnauthorizedException "Invalid or expired token")
  /\ TokenService.verifyToken hmac secret
       (TokenService.generateRefreshToken hmac secret u issued) now
     = Resolved {| jwt.payload := payload_of u; jwt.iat := issued;
                   jwt.exp := issued + 7 * 24 * 3600 |}.
Proof.
  intros Hge Hlt. split.
  - apply verify_expired. exact Hge.
  - unfold TokenService.verifyToken, TokenService.generateRefreshToken.
    rewrite verify_sign by exact Hlt. reflexivity.
Qed.

Lemma refresh_token_outlives_access_token_witness :
  TokenService.verifyToken sample_hmac "s3cret"
    (TokenService.generateToken sample_hmac "s3cret"
       (sample_user 3 USER true) 0) 90000
  = Rejected (UnauthorizedException "Invalid or expired token")
  /\ TokenService.verifyToken sample_hmac "s3cret"
       (TokenService.generateRefreshToken sample_hmac "s3cret"
          (sample_user 3 USER true) 0) 90000
     = Resolved {| jwt.payload := payload_of (sample_user 3 USER true);
                   jwt.iat := 0; jwt.exp := 0 + 7 * 24 * 3600 |}.
Proof.
  apply (refresh_token_outlives_access_token sample_hmac "s3cret"
           (sample_user 3 USER true) 0 90000); [discriminate | reflexivity].
Defined.

(** X13.  The two kinds of token are not told apart: [refreshToken]
    given an unexpired access token issues a new pair for the user it
    names. *)
Theorem refreshToken_accepts_an_access_token
    (hmac : string -> jwt.Claims -> string) (secret : string)
    (w : World) (holder u : User) (issued : Date) :
  clock w < issued + 24 * 3600 ->
  users w !! user_id holder = Some u ->
  Drizzle.AuthService.refreshToken hmac secret
    (TokenService.generateToken hmac secret holder issued) w
  = (Resolved
       {| pair_token := TokenService.generateToken hmac secret u (clock w);
          pair_refreshToken :=
            TokenService.generateRefreshToken hmac secret u (clock w) |}, w).
Proof.
  intros Hlt Hu.
  erewrite drizzle_refreshToken_verified.
  2:{ unfold TokenService.verifyToken, TokenService.generateToken.
      rewrite verify_sign by exact Hlt. reflexivity. }
  cbn. rewrite Hu. reflexivity.
Qed.

Lemma refreshToken_accepts_an_access_token_witness :
  Drizzle.AuthService.refreshToken sample_hmac "s3cret"
    (TokenService.generateToken sample_hmac "s3cret"
       (sample_user 3 USER true) 50) sample_world
  = (Resolved
       {| pair_token :=
            TokenService.generateToken sample_hmac "s3cret"
              (sample_user 3 USER true) 100;
          pair_refreshToken :=
            TokenService.generateRefreshToken sample_hmac "s3cret"
              (sample_user 3 USER true) 100 |}, sample_world).
Proof.
  apply (refreshToken_accepts_an_access_token sample_hmac "s3cret"
           sample_world (sample_user 3 USER true) (sample_user 3 USER true)
           50); reflexivity.
Defined.

(** X14.  [refreshToken] never writes the database.  It resolves only
    when the token verifies and its subject is in the users table, with
    tokens carrying that user's claims; every rejection is the one
    [UnauthorizedException] "Invalid refresh token". *)
Theorem refreshToken_outcomes
    (hmac : string -> jwt.Claims -> string) (secret : string)
    (w : World) (token : jwt.Token) :
  snd (Drizzle.AuthService.refreshToken hmac secret token w) = w
  /\ match fst (Drizzle.AuthService.refreshToken hmac secret token w) with
     | Resolved issued =>
         exists decoded user,
           TokenService.verifyToken hmac secret token (clock w)
           = Resolved decoded
           /\ users w !! userId (jwt.payload decoded) = Some user
           /\ claims_of (pair_token issued) = Some (payload_of user)
           /\ claims_of (pair_refreshToken issued) = Some (payload_of user)
     | Rejected e => e = UnauthorizedException "Invalid refresh token"
     end.
Proof.
  destruct (TokenService.verifyToken hmac secret token (clock w))
    as [decoded|e] eqn:Hv.
  - rewrite (drizzle_refreshToken_verified hmac secret w token decoded Hv).
    destruct (users w !! userId (jwt.payload decoded)) as [user|] eqn:Hu;
      cbn; split; try reflexivity.
    exists decoded, user. repeat split; assumption.
  - rewrite (drizzle_refreshToken_unverified hmac secret w token e Hv).
    cbn. split; reflexivity.
Qed.

(** ** Properties of the middleware *)

Lemma verified_token_not_empty hmac secret token now decoded :
  TokenService.verifyToken hmac secret token now = Resolved decoded ->
  empty_token token = false.
Proof. destruct token; [discriminate | reflexivity]. Qed.

Lemma verifyToken_rejection hmac secret token now e :
  TokenService.verifyToken hmac secret token now = Rejected e ->
  e = UnauthorizedException "Invalid or expired token".
Proof.
  unfold TokenService.verifyToken.
  destruct (jwt.verify hmac token secret now); congruence.
Qed.

Lemma drizzle_authenticate_verified hmac secret req w token decoded :
  authorization req ≫= (fun words => words !! 1%nat) = Some token ->
  TokenService.verifyToken hmac secret token (clock w) = Resolved decoded ->
  DrizzleMiddleware.authenticate hmac secret req w
  = (Resolved
       (assign_identity req decoded,
        match users w !! userId (jwt.payload decoded) with
        | None => NextError (UnauthorizedException "User no longer exists")
        | Some user =>
            if user_isActive user then Next
            else NextError (UnauthorizedException "User account is inactive")
        end), w).
Proof.
  intros Htok Hv.
  unfold DrizzleMiddleware.authenticate, authMiddleware.createAuthMiddleware,
    authMiddleware.checkUser, DrizzleMiddleware.finder,
    Drizzle.UserRepository.findById.
  rewrite Htok, (verified_token_not_empty _ _ _ _ _ Hv).
  unfold_async. cbn. rewrite Hv.
  destruct (users w !! userId (jwt.payload decoded)) as [user|];
    [destruct (user_isActive user) eqn:Ha|]; cbn; rewrite ?Ha; reflexivity.
Qed.

Lemma typeorm_authenticate_verified hmac secret req w token decoded :
  authorization req ≫= (fun words => words !! 1%nat) = Some token ->
  TokenService.verifyToken hmac secret token (clock w) = Resolved decoded ->
  TypeOrmMiddleware.authenticate hmac secret req w
  = (Resolved
       (assign_identity req decoded,
        match users w !! userId (jwt.payload decoded) with
        | None => NextError (UnauthorizedException "User no longer exists")
        | Some user =>
            if user_isActive user then Next
            else NextError (UnauthorizedException "User no longer exists")
        end), w).
Proof.
  intros Htok Hv.
  unfold TypeOrmMiddleware.authenticate, authMiddleware.createAuthMiddleware,
    authMiddleware.checkUser, TypeOrmMiddleware.finder,
    TypeOrm.UserRepository.findById.
  rewrite Htok, (verified_token_not_empty _ _ _ _ _ Hv).
  unfold_async. cbn. rewrite Hv.
  destruct (users w !! userId (jwt.payload decoded)) as [user|];
    [destruct (user_isActive user) eqn:Ha|]; cbn; rewrite ?Ha; reflexivity.
Qed.

(** X15.  The drizzle [authenticate] never writes the database.  It
    calls [next()] only when the second word of the [Authorization]
    header verifies as a token whose subject is an active user of the
    table, and then the request carries the token's identity; whatever
    else happens, [next] receives an [UnauthorizedException]. *)
Theorem authenticate_outcomes
    (hmac : string -> jwt.Claims -> string) (secret : string)
    (req : AuthRequest) (w : World) :
  exists req' call,
    DrizzleMiddleware.authenticate hmac secret req w
    = (Resolved (req', call), w)
    /\ match call with
       | Next =>
           exists token decoded user,
             authorization req ≫= (fun words => words !! 1%nat) = Some token
             /\ TokenService.verifyToken hmac secret token (clock w)
                = Resolved decoded
             /\ users w !! userId (jwt.payload decoded) = Some user
             /\ user_isActive user = true
             /\ req' = assign_identity req decoded
       | NextError error => exists message,
           error = UnauthorizedException message
       end.
Proof.
  destruct (authorization req ≫= (fun words => words !! 1%nat))
    as [token|] eqn:Htok.
  - destruct (TokenService.verifyToken hmac secret token (clock w))
      as [decoded|e] eqn:Hv.
    + rewrite (drizzle_authenticate_verified _ _ _ _ _ _ Htok Hv).
      do 2 eexists. split; [reflexivity|].
      destruct (users w !! userId (jwt.payload decoded)) as [user|] eqn:Hu;
        [destruct (user_isActive user) eqn:Ha|]; eauto 10.
    + unfold DrizzleMiddleware.authenticate,
        authMiddleware.createAuthMiddleware.
      rewrite Htok. apply verifyToken_rejection in Hv as He.
      destruct (empty_token token); unfold_async; cbn; rewrite ?Hv;
        do 2 eexists; (split; [reflexivity|]); subst e; cbn; eauto.
  - unfold DrizzleMiddleware.authenticate,
      authMiddleware.createAuthMiddleware.
    rewrite Htok. do 2 eexists. split; [reflexivity|]. cbn. eauto.
Qed.

(** X16.  The identity that [authenticate] writes to the request is the
    token's, not the table's, and the scheme word of the header is not
    looked at: for a verifying token of an active user, whatever role the
    table holds, a following [authorize(...roles)] passes exactly when
    the role in the token is one of [roles]. *)
Theorem authenticate_takes_identity_from_token
    (hmac : string -> jwt.Claims -> string) (secret : string)
    (scheme : string) (token : jwt.Token) (w : World)
    (decoded : jwt.Claims) (user : User) (roles : list UserRole) :
  TokenService.verifyToken hmac secret token (clock w) = Resolved decoded ->
  users w !! userId (jwt.payload decoded) = Some user ->
  user_isActive user = true ->
  exists req',
    DrizzleMiddleware.authenticate hmac secret (bearer scheme token) w
    = (Resolved (req', Next), w)
    /\ req_userId req' = Some (userId (jwt.payload decoded))
    /\ req_email req' = Some (email (jwt.payload decoded))
    /\ req_role req' = Some (role (jwt.payload decoded))
    /\ (authMiddleware.authorize roles req' = Resolved Next
        <-> role (jwt.payload decoded) ∈ roles).
Proof.
  intros Hv Hu Ha.
  rewrite (drizzle_authenticate_verified hmac secret (bearer scheme token) w
             token decoded eq_refl Hv).
  rewrite Hu, Ha. eexists. split; [reflexivity|].
  repeat split; unfold authMiddleware.authorize; cbn;
    case_bool_decide; intros; try tauto; try discriminate.
Qed.

(** The administrator 1 of the fixture was a MANAGER when the token was
    issued. *)
Lemma authenticate_takes_identity_from_token_witness :
  user_role (sample_user 1 ADMIN true) = ADMIN
  /\ exists req',
      DrizzleMiddleware.authenticate sample_hmac "s3cret"
        (bearer "Bearer"
           (TokenService.generateToken sample_hmac "s3cret"
              (sample_user 1 MANAGER true) 50)) sample_world
      = (Resolved (req', Next), sample_world)
      /\ req_userId req' = Some 1
      /\ req_email req' = Some "user@example.com"
      /\ req_role req' = Some MANAGER
      /\ (authMiddleware.authorize [ADMIN] req' = Resolved Next
          <-> MANAGER ∈ [ADMIN]).
Proof.
  split; [reflexivity|].
  apply (authenticate_takes_identity_from_token sample_hmac "s3cret"
           "Bearer"
           (TokenService.generateToken sample_hmac "s3cret"
              (sample_user 1 MANAGER true) 50)
           sample_world
           {| jwt.payload := payload_of (sample_user 1 MANAGER true);
              jwt.iat := 50; jwt.exp := 50 + 24 * 3600 |}
           (sample_user 1 ADMIN true) [ADMIN]); reflexivity.
Defined.

(** X17.  A verifying token whose subject has been deactivated is
    refused by both applications, with different messages: "User account
    is inactive" from drizzle, "User no longer exists" from typeorm,
    whose finder does not see inactive users.  The request has been given
    the token's identity all the same. *)
Theorem inactive_subject_is_refused
    (hmac : string -> jwt.Claims -> string) (secret : string)
    (scheme : string) (token : jwt.Token) (w : World)
    (decoded : jwt.Claims) (user : User) :
  TokenService.verifyToken hmac secret token (clock w) = Resolved decoded ->
  users w !! userId (jwt.payload decoded) = Some user ->
  user_isActive user = false ->
  DrizzleMiddleware.authenticate hmac secret (bearer scheme token) w
  = (Resolved (assign_identity (bearer scheme token) decoded,
               NextError (UnauthorizedException "User account is inactive")),
     w)
  /\ TypeOrmMiddleware.authenticate hmac secret (bearer scheme token) w
     = (Resolved (assign_identity (bearer scheme token) decoded,
                  NextError (UnauthorizedException "User no longer exists")),
        w).
Proof.
  intros Hv Hu Ha.
  rewrite (drizzle_authenticate_verified hmac secret (bearer scheme token) w
             token decoded eq_refl Hv).
  rewrite (typeorm_authenticate_verified hmac secret (bearer scheme token) w
             token decoded eq_refl Hv).
  rewrite Hu, Ha. split; reflexivity.
Qed.

Lemma inactive_subject_is_refused_witness :
  DrizzleMiddleware.authenticate sample_hmac "s3cret"
    (bearer "Bearer"
       (TokenService.generateToken sample_hmac "s3cret" inactive_user 50))
    sample_world
  = (Resolved
       (assign_identity
          (bearer "Bearer"
             (TokenService.generateToken sample_hmac "s3cret"
                inactive_user 50))
          {| jwt.payload := payload_of inactive_user;
             jwt.iat := 50; jwt.exp := 50 + 24 * 3600 |},
        NextError (UnauthorizedException "User account is inactive")),
     sample_world)
  /\ TypeOrmMiddleware.authenticate sample_hmac "s3cret"
       (bearer "Bearer"
          (TokenService.generateToken sample_hmac "s3cret" inactive_user 50))
       sample_world
     = (Resolved
          (assign_identity
             (bearer "Bearer"
                (TokenService.generateToken sample_hmac "s3cret"
                   inactive_user 50))
             {| jwt.payload := payload_of inactive_user;
                jwt.iat := 50; jwt.exp := 50 + 24 * 3600 |},
           NextError (UnauthorizedException "User no longer exists")),
        sample_world).
Proof.
  apply (inactive_subject_is_refused sample_hmac "s3cret" "Bearer"
           (TokenService.generateToken sample_hmac "s3cret" inactive_user 50)
           sample_world
           {| jwt.payload := payload_of inactive_user;
              jwt.iat := 50; jwt.exp := 50 + 24 * 3600 |}
           inactive_user); reflexivity.
Defined.

(** X18.  The deprecated [authenticate] export checks the token alone:
    it calls [next()] for every verifying token, whether or not its
    subject is in the users table. *)
Theorem legacy_authenticate_ignores_the_users_table
    (hmac : string -> jwt.Claims -> string) (secret : string)
    (scheme : string) (token : jwt.Token) (w : World)
    (decoded : jwt.Claims) :
  TokenService.verifyToken hmac secret token (clock w) = Resolved decoded ->
  authMiddleware.authenticate hmac secret (bearer scheme token) w
  = (Resolved (assign_identity (bearer scheme token) decoded, Next), w).
Proof.
  intros Hv.
  unfold authMiddleware.authenticate, authMiddleware.createAuthMiddleware.
  cbn. rewrite (verified_token_not_empty _ _ _ _ _ Hv).
  unfold_async. cbn. rewrite Hv. reflexivity.
Qed.

Lemma legacy_authenticate_ignores_the_users_table_witness :
  users sample_world !! 42 = None
  /\ authMiddleware.authenticate sample_hmac "s3cret"
       (bearer "Bearer"
          (TokenService.generateToken sample_hmac "s3cret"
             (sample_user 42 ADMIN true) 50)) sample_world
     = (Resolved
          (assign_identity
             (bearer "Bearer"
                (TokenService.generateToken sample_hmac "s3cret"
                   (sample_user 42 ADMIN true) 50))
             {| jwt.payload := payload_of (sample_user 42 ADMIN true);
                jwt.iat := 50; jwt.exp := 50 + 24 * 3600 |}, Next),
        sample_world).
Proof.
  split; [reflexivity|].
  apply (legacy_authenticate_ignores_the_users_table sample_hmac "s3cret"
           "Bearer"
           (TokenService.generateToken sample_hmac "s3cret"
              (sample_user 42 ADMIN true) 50)
           sample_world
           {| jwt.payload := payload_of (sample_user 42 ADMIN true);
              jwt.iat := 50; jwt.exp := 50 + 24 * 3600 |}).
  reflexivity.
Defined.

(** X19.  The middleware accepts a refresh token as a bearer token:
    between 24 hours and 7 days after issue the access token of an active
    user is refused and the refresh token issued with it authenticates
    the same user. *)
Theorem middleware_accepts_a_refresh_token
    (hmac : string -> jwt.Claims -> string) (secret : string)
    (scheme : string) (w : World) (user : User) (issued : Date) :
  issued + 24 * 3600 <= clock w ->
  clock w < issued + 7 * 24 * 3600 ->
  users w !! user_id user = Some user ->
  user_isActive user = true ->
  (exists req',
     DrizzleMiddleware.authenticate hmac secret
       (bearer scheme (TokenService.generateToken hmac secret user issued)) w
     = (Resolved
          (req', NextError (UnauthorizedException "Invalid or expired token")),
        w))
  /\ (exists req',
        DrizzleMiddleware.authenticate hmac secret
          (bearer scheme
             (TokenService.generateRefreshToken hmac secret user issued)) w
        = (Resolved (req', Next), w)
        /\ req_userId req' = Some (user_id user)
        /\ req_role req' = Some (user_role user)).
Proof.
  intros Hge Hlt Hu Ha.
  destruct (refresh_token_outlives_access_token hmac secret user issued
              (clock w) Hge Hlt) as [Hacc Href].
  split.
  - unfold DrizzleMiddleware.authenticate,
      authMiddleware.createAuthMiddleware.
    cbn. unfold_async. cbn. rewrite Hacc. eexists. reflexivity.
  - rewrite (drizzle_authenticate_verified hmac secret
               (bearer scheme
                  (TokenService.generateRefreshToken hmac secret user issued))
               w _ _ eq_refl Href).
    cbn. rewrite Hu, Ha. eexists. repeat split.
Qed.

Lemma middleware_accepts_a_refresh_token_witness :
  (exists req',
     DrizzleMiddleware.authenticate sample_hmac "s3cret"
       (bearer "Bearer"
          (TokenService.generateToken sample_hmac "s3cret"
             (sample_user 3 USER true) (-90000))) sample_world
     = (Resolved
          (req', NextError (UnauthorizedException "Invalid or expired token")),
        sample_world))
  /\ (exists req',
        DrizzleMiddleware.authenticate sample_hmac "s3cret"
          (bearer "Bearer"
             (TokenService.generateRefreshToken sample_hmac "s3cret"
                (sample_user 3 USER true) (-90000))) sample_world
        = (Resolved (req', Next), sample_world)
        /\ req_userId req' = Some 3
        /\ req_role req' = Some USER).
Proof.
  apply (middleware_accepts_a_refresh_token sample_hmac "s3cret" "Bearer"
           sample_world (sample_user 3 USER true) (-90000));
    [discriminate | reflexivity | reflexivity | reflexivity].
Defined.

(** ** Properties of the user service *)

Lemma elem_of_user_rows w (u : User) :
  u ∈ user_rows w <-> exists k, users w !! k = Some u.
Proof.
  unfold user_rows. rewrite list_elem_of_In, in_map_iff. split.
  - intros ([k u'] & <- & Hin). exists k.
    apply elem_of_map_to_list, list_elem_of_In, Hin.
  - intros (k & Hk). exists (k, u). split; [reflexivity|].
    apply list_elem_of_In, elem_of_map_to_list, Hk.
Qed.

Definition deactivated (u : User) : User :=
  {| user_id := user_id u; user_email := user_email u;
     user_firstName := user_firstName u; user_lastName := user_lastName u;
     user_isActive := false; user_role := user_role u;
     user_password := user_password u; user_createdAt := user_createdAt u;
     user_updatedAt := user_updatedAt u |}.

Lemma drizzle_deleteUser_existing w id' u :
  users w !! id' = Some u ->
  user_id u = id' ->
  DrizzleUserService.deleteUser id' w
  = (Resolved true, set_users (fun m => <[id' := deactivated u]> m) w).
Proof.
  intros Hu Hid.
  unfold DrizzleUserService.deleteUser, DrizzleUserService.existingUser,
    DrizzleUserTable.update.
  unfold_async. rewrite Hu. cbn. rewrite Hu. cbn.
  unfold set_users. cbn. rewrite Hid, insert_delete_eq. reflexivity.
Qed.

(** X20.  [deleteUser] is a soft delete: the row stays with [isActive]
    set to false and every other column as it was, no other user and no
    task changes, [getUserById] answers [NotFoundException] from then on,
    and the repository's [findById] still finds the row. *)
Theorem deleteUser_deactivates_and_keeps_the_row
    (w : World) (id' : Z) (u : User) :
  users w !! id' = Some u ->
  user_id u = id' ->
  exists w',
    DrizzleUserService.deleteUser id' w = (Resolved true, w')
    /\ users w' !! id' = Some (deactivated u)
    /\ (forall k, k <> id' -> users w' !! k = users w !! k)
    /\ tasks w' = tasks w
    /\ DrizzleUserService.getUserById id' w'
       = (Rejected (DrizzleUserService.userNotFound id'), w')
    /\ Drizzle.UserRepository.findById id' w'
       = (Resolved (Some (deactivated u)), w').
Proof.
  intros Hu Hid.
  rewrite (drizzle_deleteUser_existing w id' u Hu Hid).
  eexists. split; [reflexivity|].
  assert (Hl : users (set_users (fun m => <[id' := deactivated u]> m) w)
               !! id' = Some (deactivated u))
    by (cbn; apply lookup_insert_eq).
  repeat split; auto.
  - intros k Hk. cbn. apply lookup_insert_ne. congruence.
  - unfold DrizzleUserService.getUserById. rewrite Hl. reflexivity.
  - unfold Drizzle.UserRepository.findById. rewrite Hl. reflexivity.
Qed.

Lemma deleteUser_deactivates_and_keeps_the_row_witness :
  exists w',
    DrizzleUserService.deleteUser 3 sample_world = (Resolved true, w')
    /\ users w' !! 3 = Some (deactivated (sample_user 3 USER true))
    /\ (forall k, k <> 3 -> users w' !! k = users sample_world !! k)
    /\ tasks w' = tasks sample_world
    /\ DrizzleUserService.getUserById 3 w'
       = (Rejected (DrizzleUserService.userNotFound 3), w')
    /\ Drizzle.UserRepository.findById 3 w'
       = (Resolved (Some (deactivated (sample_user 3 USER true))), w').
Proof.
  apply (deleteUser_deactivates_and_keeps_the_row sample_world 3
           (sample_user 3 USER true)); reflexivity.
Defined.

(** X21.  A token that authenticates an active user is refused with
    "User account is inactive" once [deleteUser] has run for that
    user. *)
Theorem deleted_user_is_refused_by_the_middleware
    (hmac : string -> jwt.Claims -> string) (secret : string)
    (scheme : string) (token : jwt.Token) (w : World)
    (decoded : jwt.Claims) (u : User) :
  TokenService.verifyToken hmac secret token (clock w) = Resolved decoded ->
  users w !! userId (jwt.payload decoded) = Some u ->
  user_id u = userId (jwt.payload decoded) ->
  user_isActive u = true ->
  exists req w',
    DrizzleMiddleware.authenticate hmac secret (bearer scheme token) w
    = (Resolved (req, Next), w)
    /\ DrizzleUserService.deleteUser (userId (jwt.payload decoded)) w
       = (Resolved true, w')
    /\ DrizzleMiddleware.authenticate hmac secret (bearer scheme token) w'
       = (Resolved
            (req, NextError (UnauthorizedException "User account is inactive")),
          w').
Proof.
  intros Hv Hu Hid Ha.
  do 2 eexists. split; [|split].
  - rewrite (drizzle_authenticate_verified hmac secret (bearer scheme token)
               w token decoded eq_refl Hv).
    rewrite Hu, Ha. reflexivity.
  - apply (drizzle_deleteUser_existing w _ u Hu Hid).
  - rewrite (drizzle_authenticate_verified hmac secret (bearer scheme token)
               (set_users (fun m => <[userId (jwt.payload decoded)
                                      := deactivated u]> m) w)
               token decoded eq_refl Hv).
    cbn. rewrite lookup_insert_eq. reflexivity.
Qed.

Lemma deleted_user_is_refused_by_the_middleware_witness :
  exists req w',
    DrizzleMiddleware.authenticate sample_hmac "s3cret"
      (bearer "Bearer"
         (TokenService.generateToken sample_hmac "s3cret"
            (sample_user 3 USER true) 50)) sample_world
    = (Resolved (req, Next), sample_world)
    /\ DrizzleUserService.deleteUser 3 sample_world = (Resolved true, w')
    /\ DrizzleMiddleware.authenticate sample_hmac "s3cret"
         (bearer "Bearer"
            (TokenService.generateToken sample_hmac "s3cret"
               (sample_user 3 USER true) 50)) w'
       = (Resolved
            (req, NextError (UnauthorizedException "User account is inactive")),
          w').
Proof.
  apply (deleted_user_is_refused_by_the_middleware sample_hmac "s3cret"
           "Bearer"
           (TokenService.generateToken sample_hmac "s3cret"
              (sample_user 3 USER true) 50)
           sample_world
           {| jwt.payload := payload_of (sample_user 3 USER true);
              jwt.iat := 50; jwt.exp := 50 + 24 * 3600 |}
           (sample_user 3 USER true)); reflexivity.
Defined.

(** X22.  [updateUserStatus(id, true)] undoes [deleteUser] for a user who
    was active: the database is back to what it was and [getUserById]
    returns the user again. *)
Theorem reactivation_undoes_deleteUser
    (w : World) (id' : Z) (u : User) :
  users w !! id' = Some u ->
  user_id u = id' ->
  user_isActive u = true ->
  exists w',
    DrizzleUserService.deleteUser id' w = (Resolved true, w')
    /\ DrizzleUserService.updateUserStatus id' true w' = (Resolved (Some u), w)
    /\ DrizzleUserService.getUserById id' w = (Resolved u, w).
Proof.
  intros Hu Hid Ha.
  rewrite (drizzle_deleteUser_existing w id' u Hu Hid).
  eexists. split; [reflexivity|]. split.
  - unfold DrizzleUserService.updateUserStatus,
      DrizzleUserService.existingUser, DrizzleUserTable.update.
    unfold_async. cbn. rewrite lookup_insert_eq. cbn.
    rewrite lookup_insert_eq. cbn.
    assert (Hback : patch_user (deactivated u)
                      {| pu_id := None; pu_email := None;
                         pu_firstName := None; pu_lastName := None;
                         pu_isActive := Some true; pu_role := None;
                         pu_password := None; pu_createdAt := None;
                         pu_updatedAt := None |} = u)
      by (destruct u; cbn in *; subst; reflexivity).
    unfold set_users. cbn. rewrite Hback, Hid.
    rewrite insert_delete_eq, insert_insert_eq, (insert_id _ _ _ Hu).
    destruct w; reflexivity.
  - unfold DrizzleUserService.getUserById. rewrite Hu, Ha. reflexivity.
Qed.

Lemma reactivation_undoes_deleteUser_witness :
  exists w',
    DrizzleUserService.deleteUser 3 sample_world = (Resolved true, w')
    /\ DrizzleUserService.updateUserStatus 3 true w'
       = (Resolved (Some (sample_user 3 USER true)), sample_world)
    /\ DrizzleUserService.getUserById 3 sample_world
       = (Resolved (sample_user 3 USER true), sample_world).
Proof.
  apply (reactivation_undoes_deleteUser sample_world 3
           (sample_user 3 USER true)); reflexivity.
Defined.

(** X23.  [deleteUser] checks existence by id alone, so deleting a
    deleted user resolves again and changes nothing further. *)
Theorem deleteUser_twice
    (w : World) (id' : Z) (u : User) :
  users w !! id' = Some u ->
  user_id u = id' ->
  exists w',
    DrizzleUserService.deleteUser id' w = (Resolved true, w')
    /\ DrizzleUserService.deleteUser id' w' = (Resolved true, w').
Proof.
  intros Hu Hid.
  rewrite (drizzle_deleteUser_existing w id' u Hu Hid).
  eexists. split; [reflexivity|].
  erewrite (drizzle_deleteUser_existing _ id' (deactivated u));
    [| cbn; apply lookup_insert_eq | exact Hid].
  unfold set_users. cbn. rewrite insert_insert_eq. reflexivity.
Qed.

Lemma deleteUser_twice_witness :
  exists w',
    DrizzleUserService.deleteUser 7 sample_world = (Resolved true, w')
    /\ DrizzleUserService.deleteUser 7 w' = (Resolved true, w').
Proof.
  apply (deleteUser_twice sample_world 7 inactive_user); reflexivity.
Defined.

(** X24.  The address of a deleted user stays taken: [createUser] with
    that address is rejected with "User with this email already exists",
    because its lookup counts inactive rows. *)
Theorem deleted_users_email_stays_taken
    (users_id_seq : World -> Z) (w : World) (id' : Z) (u : User)
    (userData : PartialUser) (firstName : string) :
  users w !! id' = Some u ->
  user_id u = id' ->
  pu_email userData = Some (user_email u) ->
  pu_firstName userData = Some firstName ->
  user_email u <> "" ->
  firstName <> "" ->
  exists w',
    DrizzleUserService.deleteUser id' w = (Resolved true, w')
    /\ DrizzleUserService.createUser users_id_seq userData w'
       = (Rejected (BadRequestException
                      "User with this email already exists"), w').
Proof.
  intros Hu Hid He Hf Hne Hnf.
  rewrite (drizzle_deleteUser_existing w id' u Hu Hid).
  eexists. split; [reflexivity|].
  unfold DrizzleUserService.createUser. rewrite He, Hf.
  rewrite (proj2 (String.eqb_neq _ _) Hne), (proj2 (String.eqb_neq _ _) Hnf).
  unfold DrizzleUserTable.selectByEmail. unfold_async. cbn.
  match goal with
  | |- context [filter ?P ?l] => destruct (filter P l) as [|x l'] eqn:Hfl
  end; [|reflexivity].
  exfalso.
  eapply (filter_nil_not_elem_of _ _ (deactivated u) Hfl); [reflexivity|].
  apply elem_of_user_rows. exists id'. cbn. apply lookup_insert_eq.
Qed.

Definition newcomer (email : string) (role : option UserRole) : PartialUser :=
  {| pu_id := None; pu_email := Some email; pu_firstName := Some "Kim";
     pu_lastName := Some "Lee"; pu_isActive := None; pu_role := role;
     pu_password := Some "pa55word"; pu_createdAt := None;
     pu_updatedAt := None |}.

(** A serial that hands out the successor of the largest id in use in the
    fixture. *)
Definition sample_serial (w : World) : Z := 8.

Lemma deleted_users_email_stays_taken_witness :
  exists w',
    DrizzleUserService.deleteUser 3 sample_world = (Resolved true, w')
    /\ DrizzleUserService.createUser sample_serial
         (newcomer "user@example.com" None) w'
       = (Rejected (BadRequestException
                      "User with this email already exists"), w').
Proof.
  apply (deleted_users_email_stays_taken sample_serial sample_world 3
           (sample_user 3 USER true) (newcomer "user@example.com" None)
           "Kim"); try reflexivity; discriminate.
Defined.

(** ** Properties of registration and login *)

Lemma findByEmail_result w email :
  DrizzleUserRepository.findByEmail email w
  = (Resolved (head (filter (fun u => user_email u = email) (user_rows w))),
     w).
Proof. reflexivity. Qed.

Lemma findByEmail_Some w email u :
  head (filter (fun u => user_email u = email) (user_rows w)) = Some u ->
  user_email u = email /\ exists k, users w !! k = Some u.
Proof.
  intros H. apply head_Some_elem_of in H.
  apply list_elem_of_filter in H as [He Hin].
  split; [exact He|]. apply elem_of_user_rows, Hin.
Qed.

Lemma findByEmail_None w email :
  head (filter (fun u => user_email u = email) (user_rows w)) = None ->
  forall k u, users w !! k = Some u -> user_email u <> email.
Proof.
  intros H k u Hk He. apply head_None in H.
  eapply (filter_nil_not_elem_of _ _ u H); [exact He|].
  apply elem_of_user_rows. eauto.
Qed.

(** The only row with the address is found. *)
Lemma findByEmail_only w email k u :
  users w !! k = Some u ->
  user_email u = email ->
  (forall k' u', users w !! k' = Some u' -> user_email u' = email -> u' = u) ->
  head (filter (fun u => user_email u = email) (user_rows w)) = Some u.
Proof.
  intros Hk He Huniq.
  destruct (head (filter (fun u => user_email u = email) (user_rows w)))
    as [u'|] eqn:Hh.
  - destruct (findByEmail_Some w email u' Hh) as [He' [k' Hk']].
    f_equal. eauto.
  - exfalso. eapply findByEmail_None; eauto.
Qed.

Lemma four_present (a b c d : option string) :
  missing a || missing b || missing c || missing d = false ->
  exists x y z t,
    a = Some x /\ b = Some y /\ c = Some z /\ d = Some t
    /\ x <> "" /\ y <> "" /\ z <> "" /\ t <> "".
Proof.
  destruct a as [x|], b as [y|], c as [z|], d as [t|]; cbn;
    rewrite ?orb_true_r; try discriminate.
  intros H.
  apply orb_false_elim in H as [H Ht].
  apply orb_false_elim in H as [H Hz].
  apply orb_false_elim in H as [Hx Hy].
  exists x, y, z, t. repeat split; try reflexivity;
    apply String.eqb_neq; assumption.
Qed.

Section Accounts.
Variable hmac : string -> jwt.Claims -> string.
Variable secret : string.
Variable bcrypt_hash : string -> Z -> string.
Variable bcrypt_compare : string -> string -> bool.
Variable users_id_seq : World -> Z.

Local Abbreviation register :=
  (DrizzleAuthService.register hmac secret bcrypt_hash users_id_seq).
Local Abbreviation login :=
  (DrizzleAuthService.login hmac secret bcrypt_compare).

Definition session_of (user : User) (now : Date) : Session :=
  {| session_user := user;
     session_token := TokenService.generateToken hmac secret user now;
     session_refreshToken :=
       TokenService.generateRefreshToken hmac secret user now |}.

Lemma login_result w email password :
  login email password w
  = match head (filter (fun u => user_email u = email) (user_rows w)) with
    | Some user =>
        if bcrypt_compare password (user_password user)
        then (Resolved (session_of user (clock w)), w)
        else (Rejected (UnauthorizedException "Invalid email or password"), w)
    | None =>
        (Rejected (UnauthorizedException "Invalid email or password"), w)
    end.
Proof.
  unfold DrizzleAuthService.login, DrizzleUserRepository.findByEmail,
    DrizzleUserTable.selectByEmail, Drizzle.AuthService.generateToken,
    Drizzle.AuthService.generateRefreshToken.
  unfold_async. cbn.
  destruct (head _) as [user|]; [|reflexivity].
  destruct (bcrypt_compare password (user_password user)); reflexivity.
Qed.

(** X25.  [login] never writes the database.  It resolves only with a
    stored user that has the given address and whose stored hash matches
    the password, and the tokens carry that user's claims; an unknown
    address and a wrong password are rejected with the same
    [UnauthorizedException]. *)
Theorem login_outcomes (w : World) (email password : string) :
  snd (login email password w) = w
  /\ match fst (login email password w) with
     | Resolved session =>
         user_email (session_user session) = email
         /\ (exists k, users w !! k = Some (session_user session))
         /\ bcrypt_compare password (user_password (session_user session))
            = true
         /\ claims_of (session_token session)
            = Some (payload_of (session_user session))
         /\ claims_of (session_refreshToken session)
            = Some (payload_of (session_user session))
     | Rejected e => e = UnauthorizedException "Invalid email or password"
     end.
Proof.
  rewrite login_result.
  destruct (head _) as [user|] eqn:Hh; [|split; reflexivity].
  destruct (bcrypt_compare password (user_password user)) eqn:Hc;
    [|split; reflexivity].
  destruct (findByEmail_Some w email user Hh) as [He Hk].
  cbn. repeat split; auto.
Qed.

Definition registered (userData : PartialUser) (email firstName password : string)
    (w : World) : User :=
  {| user_id := users_id_seq w;
     user_email := email;
     user_firstName := firstName;
     user_lastName := pu_lastName userData;
     user_isActive := or_default (pu_isActive userData) true;
     user_role := or_default (pu_role userData) USER;
     user_password := bcrypt_hash password 12;
     user_createdAt := clock w;
     user_updatedAt := clock w |}.

Lemma register_result w userData email firstName password lastName :
  pu_email userData = Some email ->
  pu_firstName userData = Some firstName ->
  pu_password userData = Some password ->
  pu_lastName userData = Some lastName ->
  email <> "" -> firstName <> "" -> password <> "" -> lastName <> "" ->
  register userData w
  = match head (filter (fun u => user_email u = email) (user_rows w)) with
    | Some _ =>
        (Rejected (BadRequestException "User with this email already exists"),
         w)
    | None =>
        let user := registered userData email firstName password w in
        (Resolved (session_of user (clock w)),
         set_users (fun m => <[users_id_seq w := user]> m) w)
    end.
Proof.
  intros He Hf Hp Hl Hne Hnf Hnp Hnl.
  unfold DrizzleAuthService.register. rewrite He, Hf, Hp, Hl.
  rewrite (proj2 (String.eqb_neq _ _) Hne), (proj2 (String.eqb_neq _ _) Hnf),
    (proj2 (String.eqb_neq _ _) Hnp), (proj2 (String.eqb_neq _ _) Hnl).
  unfold DrizzleUserRepository.findByEmail, DrizzleUserTable.selectByEmail,
    DrizzleUserRepository.create, DrizzleUserTable.insert,
    Drizzle.AuthService.generateToken,
    Drizzle.AuthService.generateRefreshToken.
  unfold_async. cbn.
  destruct (head _) as [user|]; [reflexivity|].
  unfold registered. rewrite Hl. reflexivity.
Qed.

(** X26.  [register] requires email, first name, password and last
    name: when any of them is absent or empty it rejects with
    [BadRequestException] and writes nothing. *)
Theorem register_requires_four_fields (w : World) (userData : PartialUser) :
  missing (pu_email userData) || missing (pu_firstName userData)
  || missing (pu_password userData) || missing (pu_lastName userData) = true ->
  register userData w
  = (Rejected (BadRequestException
                 "Email, firstName, lastName, and password are required"), w).
Proof.
  unfold DrizzleAuthService.register, missing.
  destruct (pu_email userData) as [e|], (pu_firstName userData) as [f|],
    (pu_password userData) as [p|], (pu_lastName userData) as [l|];
    try reflexivity.
  intros H. cbn in H. rewrite H. reflexivity.
Qed.

(** X27.  [register] with the address of a user already in the table,
    active or not, is rejected with a [BadRequestException] and writes
    nothing. *)
Theorem register_refuses_a_taken_address
    (w : World) (userData : PartialUser) (k : Z) (u : User) :
  users w !! k = Some u ->
  pu_email userData = Some (user_email u) ->
  exists message,
    register userData w = (Rejected (BadRequestException message), w).
Proof.
  intros Hk He.
  destruct (missing (pu_email userData) || missing (pu_firstName userData)
            || missing (pu_password userData)
            || missing (pu_lastName userData)) eqn:Hm.
  - rewrite (register_requires_four_fields w userData Hm). eauto.
  - destruct (four_present _ _ _ _ Hm)
      as (e & f & p & l & He' & Hf & Hp & Hl & Hne & Hnf & Hnp & Hnl).
    assert (e = user_email u) by congruence. subst e.
    rewrite (register_result w userData (user_email u) f p l) by assumption.
    destruct (head _) as [u'|] eqn:Hh; [eauto|].
    exfalso. eapply findByEmail_None; eauto.
Qed.

(** X28.  When the hash comparison accepts the hashes the library
    makes, a successful [register] can be followed by a [login] with the
    same address and password, which resolves with the same user and
    tokens.  The stored role is the one in the payload ([USER] when it
    has none), and the access token carries it. *)
Theorem register_then_login
    (w : World) (userData : PartialUser) (session : Session) (w' : World)
    (email password : string) :
  (forall p, bcrypt_compare p (bcrypt_hash p 12) = true) ->
  pu_email userData = Some email ->
  pu_password userData = Some password ->
  register userData w = (Resolved session, w') ->
  login email password w' = (Resolved session, w')
  /\ user_role (session_user session) = or_default (pu_role userData) USER
  /\ claims_of (session_token session)
     = Some (payload_of (session_user session))
  /\ users w' !! user_id (session_user session) = Some (session_user session).
Proof.
  intros Hbcrypt He Hp Hreg.
  destruct (missing (pu_email userData) || missing (pu_firstName userData)
            || missing (pu_password userData)
            || missing (pu_lastName userData)) eqn:Hm.
  { rewrite (register_requires_four_fields w userData Hm) in Hreg.
    discriminate. }
  destruct (four_present _ _ _ _ Hm)
    as (e & f & p & l & He' & Hf & Hp' & Hl & Hne & Hnf & Hnp & Hnl).
  assert (e = email) by congruence. assert (p = password) by congruence.
  subst e p.
  rewrite (register_result w userData email f password l) in Hreg
    by assumption.
  destruct (head _) as [u'|] eqn:Hh; [discriminate|].
  cbn in Hreg. injection Hreg as <- <-.
  set (user := registered userData email f password w).
  assert (Hin : users (set_users (fun m => <[users_id_seq w := user]> m) w)
                !! users_id_seq w = Some user)
    by (cbn; apply lookup_insert_eq).
  repeat split; auto.
  rewrite login_result.
  rewrite (findByEmail_only _ email (users_id_seq w) user Hin eq_refl).
  - cbn. rewrite Hbcrypt. reflexivity.
  - intros k' u'. cbn. rewrite lookup_insert.
    case_decide; [congruence|].
    intros Hk' He''. exfalso. eapply findByEmail_None; eauto.
Qed.

End Accounts.

(** A hash and its comparison to run the examples with. *)
Definition sample_bcrypt_hash (password : string) (rounds : Z) : string :=
  "$2a$" +:+ render rounds +:+ "$" +:+ password.

Definition sample_bcrypt_compare (password hash : string) : bool :=
  String.eqb hash (sample_bcrypt_hash password 12).

Lemma register_requires_four_fields_witness :
  DrizzleAuthService.register sample_hmac "s3cret" sample_bcrypt_hash
    sample_serial
    {| pu_id := None; pu_email := Some "kim@example.com";
       pu_firstName := Some "Kim"; pu_lastName := None;
       pu_isActive := None; pu_role := None;
       pu_password := Some "pa55word"; pu_createdAt := None;
       pu_updatedAt := None |} sample_world
  = (Rejected (BadRequestException
                 "Email, firstName, lastName, and password are required"),
     sample_world).
Proof.
  apply (register_requires_four_fields sample_hmac "s3cret"
           sample_bcrypt_hash sample_serial sample_world).
  reflexivity.
Defined.

Lemma register_refuses_a_taken_address_witness :
  exists message,
    DrizzleAuthService.register sample_hmac "s3cret" sample_bcrypt_hash
      sample_serial (newcomer "user@example.com" None) sample_world
    = (Rejected (BadRequestException message), sample_world).
Proof.
  apply (register_refuses_a_taken_address sample_hmac "s3cret"
           sample_bcrypt_hash sample_serial sample_world
           (newcomer "user@example.com" None) 7 inactive_user);
    reflexivity.
Defined.

(** Kim registers and asks for the ADMIN role. *)
Definition kim : User :=
  {| user_id := 8; user_email := "kim@example.com";
     user_firstName := "Kim"; user_lastName := Some "Lee";
     user_isActive := true; user_role := ADMIN;
     user_password := sample_bcrypt_hash "pa55word" 12;
     user_createdAt := 100; user_updatedAt := 100 |}.

Definition sample_world_with_kim : World :=
  set_users (fun m => <[8 := kim]> m) sample_world.

Lemma register_then_login_witness :
  DrizzleAuthService.login sample_hmac "s3cret" sample_bcrypt_compare
    "kim@example.com" "pa55word" sample_world_with_kim
  = (Resolved (session_of sample_hmac "s3cret" kim 100),
     sample_world_with_kim)
  /\ user_role (session_user (session_of sample_hmac "s3cret" kim 100))
     = or_default (pu_role (newcomer "kim@example.com" (Some ADMIN))) USER
  /\ claims_of (session_token (session_of sample_hmac "s3cret" kim 100))
     = Some (payload_of (session_user (session_of sample_hmac "s3cret" kim 100)))
  /\ users sample_world_with_kim
       !! user_id (session_user (session_of sample_hmac "s3cret" kim 100))
     = Some (session_user (session_of sample_hmac "s3cret" kim 100)).
Proof.
  apply (register_then_login sample_hmac "s3cret" sample_bcrypt_hash
           sample_bcrypt_compare sample_serial sample_world
           (newcomer "kim@example.com" (Some ADMIN))
           (session_of sample_hmac "s3cret" kim 100) sample_world_with_kim
           "kim@example.com" "pa55word").
  - intros p. apply String.eqb_refl.
  - reflexivity.
  - reflexivity.
  - reflexivity.
Defined.
